(** * SalesAIAssistantProfileBuilder: crawler and response splitter

    A shallow embedding of [scraper.py] (class [WebsiteScraper]) and of the
    response-splitting half of [generator.py] (class [YAMLGenerator]),
    followed by the properties of the specification that concern them.

    Conventions.
    - A Python [str] is a list of Unicode code points ([list N]); slices
      such as [text[:500]] are [take 500 text].
    - A Python [int] is a [Z]; [len(...)] is injected with [Z.of_nat].
    - [self.visited_urls] is a [gset]; the order in which [list(nav_urls)]
      enumerates a set is left to the environment.
    - Everything the program obtains from the browser, and the library
      function [urlparse], is a field of the environment record [World].
    - A function that can raise returns an [option], [None] standing for
      the exception that leaves it; [yaml.safe_load], the completion
      service, standard output and the file system are parameters of the
      functions that use them. *)

From stdpp Require Import base option list strings gmap sets.
From Stdlib Require Import ZArith NArith Lia.

Set Warnings "-abstract-large-number,-clear-no-such-hyp".

Abbreviation pystr := (list N).

(** ** Python strings *)
Module PyStr.

(** An ASCII literal as a sequence of code points. *)
Definition lit (s : string) : pystr :=
  Ascii.N_of_ascii <$> String.list_ascii_of_string s.

Definition NL : N := 10.

(** [str.isspace] on one code point; the same table backs [str.strip()]
    and the class [\s] of [re] on [str] patterns. *)
Definition isspace (c : N) : bool :=
  (((9 <=? c) && (c <=? 13)) || ((28 <=? c) && (c <=? 32))
   || (c =? 133) || (c =? 160) || (c =? 5760)
   || ((8192 <=? c) && (c <=? 8202))
   || (c =? 8232) || (c =? 8233) || (c =? 8239) || (c =? 8287)
   || (c =? 12288))%N.

Fixpoint lstrip (s : pystr) : pystr :=
  match s with
  | c :: s' => if isspace c then lstrip s' else s
  | [] => []
  end.

Definition rstrip (s : pystr) : pystr := reverse (lstrip (reverse s)).

(** [s.strip()] *)
Definition strip (s : pystr) : pystr := rstrip (lstrip s).

(** [s.startswith(p)] *)
Fixpoint startswith (p s : pystr) : bool :=
  match p, s with
  | [], _ => true
  | a :: p', b :: s' => (a =? b)%N && startswith p' s'
  | _ :: _, [] => false
  end.

(** [s.find(sep)], with [None] for -1. *)
Fixpoint find (sep s : pystr) : option nat :=
  if startswith sep s then Some 0
  else match s with
       | [] => None
       | _ :: s' => S <$> find sep s'
       end.

(** [sep in s] *)
Definition contains (sep s : pystr) : bool := bool_decide (is_Some (find sep s)).

(** [s.split(sep)] for a non-empty [sep]: cut at the leftmost occurrence
    and go on behind it.  The recursion is not structural, so it is
    driven by a counter; [split] starts it above the length of [s]. *)
Fixpoint split_fuel (n : nat) (sep s : pystr) : list pystr :=
  match n with
  | O => [s]
  | S n' =>
      match find sep s with
      | None => [s]
      | Some i => take i s :: split_fuel n' sep (drop (i + length sep) s)
      end
  end.

Definition split (sep s : pystr) : list pystr :=
  split_fuel (S (length s)) sep s.

(** [s.replace(c, "")] for a one-character [c]. *)
Definition remove_char (c : N) (s : pystr) : pystr :=
  filter (λ x, x ≠ c) s.

(** [s[:n]] for a Python integer [n]: a negative bound counts from the
    end. *)
Definition slice_to {A} (n : Z) (l : list A) : list A :=
  if (n <? 0)%Z then take (length l - Z.to_nat (- n)) l
  else take (Z.to_nat n) l.

End PyStr.

(** ** The fragment of Python's [re] used by the generator *)
Module Re.
Import PyStr.

(** Patterns.  [^] and [$] have their [re.MULTILINE] meaning, the only
    one the source uses.  Repetition is needed over a character class
    only ([\s*], [\s+]). *)
Inductive re : Type :=
| REps
| RChar (c : N)
| RBol
| REol
| ROpt (r : re)
| RStarSet (p : N → bool)
| RPlusSet (p : N → bool)
| RSeq (r1 r2 : re).

Fixpoint rlit (l : pystr) : re :=
  match l with
  | [] => REps
  | c :: l' => RSeq (RChar c) (rlit l')
  end.

Fixpoint rcat (rs : list re) : re :=
  match rs with
  | [] => REps
  | r :: rs' => RSeq r (rcat rs')
  end.

(** A matching position: the character before it ([None] at the start
    of the subject) and the rest of the subject. *)
Definition at_bol (prev : option N) : bool :=
  match prev with
  | None => true
  | Some c => (c =? NL)%N
  end.

Definition at_eol (s : pystr) : bool :=
  match s with
  | [] => true
  | c :: _ => (c =? NL)%N
  end.

Section Matcher.
Context {R : Type}.

(** Greedy repetition of a class, giving characters back one at a
    time when the continuation fails. *)
Fixpoint star_set (p : N → bool) (k : option N → pystr → option R)
    (prev : option N) (s : pystr) : option R :=
  match s with
  | c :: s' =>
      if p c then
        match star_set p k (Some c) s' with
        | Some r => Some r
        | None => k prev s
        end
      else k prev s
  | [] => k prev []
  end.

(** Backtracking matcher in continuation-passing style: alternatives
    are tried in the engine's priority order and the first success
    is returned. *)
Fixpoint rmatch (r : re) (k : option N → pystr → option R)
    (prev : option N) (s : pystr) : option R :=
  match r with
  | REps => k prev s
  | RChar c =>
      match s with
      | x :: s' => if (x =? c)%N then k (Some x) s' else None
      | [] => None
      end
  | RBol => if at_bol prev then k prev s else None
  | REol => if at_eol s then k prev s else None
  | ROpt r1 =>
      match rmatch r1 k prev s with
      | Some x => Some x
      | None => k prev s
      end
  | RStarSet p => star_set p k prev s
  | RPlusSet p =>
      match s with
      | x :: s' => if p x then star_set p k (Some x) s' else None
      | [] => None
      end
  | RSeq r1 r2 => rmatch r1 (rmatch r2 k) prev s
  end.
End Matcher.

(** Length of the match of [r] that starts at this position, if any. *)
Definition match_at (r : re) (prev : option N) (s : pystr) : option nat :=
  rmatch r (λ _ rest, Some (length s - length rest)) prev s.

(** [re.sub(r, '', s)]: every non-overlapping match, leftmost first, is
    deleted.  [skip] counts the characters of the current match still
    to be dropped.  An empty match deletes nothing. *)
Fixpoint sub_go (r : re) (skip : nat) (prev : option N) (s : pystr) : pystr :=
  match s with
  | [] => []
  | c :: s' =>
      match skip with
      | S n => sub_go r n (Some c) s'
      | O =>
          match match_at r prev s with
          | Some (S n) => sub_go r n (Some c) s'
          | _ => c :: sub_go r 0 (Some c) s'
          end
      end
  end.

Definition sub_del (r : re) (s : pystr) : pystr := sub_go r 0 None s.

(** [re.search(r, s)]: start of the leftmost match ([match.start()]). *)
Fixpoint search_go (r : re) (prev : option N) (s : pystr) (i : nat) : option nat :=
  match match_at r prev s with
  | Some _ => Some i
  | None =>
      match s with
      | [] => None
      | c :: s' => search_go r (Some c) s' (S i)
      end
  end.

Definition search (r : re) (s : pystr) : option nat := search_go r None s 0.

End Re.

(** ** generator.py: the response splitter *)
Module Generator.
Import PyStr Re.

Definition MARKER : pystr := lit "---SPLIT---".

(** [r'^```ya?ml?\s*\n?'] *)
Definition re_fence_open : re :=
  rcat [RBol; rlit (lit "```y"); ROpt (rlit (lit "a")); rlit (lit "m");
        ROpt (rlit (lit "l")); RStarSet isspace; ROpt (RChar NL)].

(** [r'^```\s*$'] *)
Definition re_fence_close : re :=
  rcat [RBol; rlit (lit "```"); RStarSet isspace; REol].

(** [r'\n(meta:\s*\n\s+company_id:)'] *)
Definition re_playbook_start : re :=
  rcat [RChar NL; rlit (lit "meta:"); RStarSet isspace; RChar NL;
        RPlusSet isspace; rlit (lit "company_id:")].

(** [YAMLGenerator._clean_yaml]; both substitutions carry
    [flags=re.MULTILINE]. *)
Definition _clean_yaml (content : pystr) : pystr :=
  let content := sub_del re_fence_open content in
  let content := sub_del re_fence_close content in
  strip content.

(** Some line of the text opens with three backticks; [bol] tells
    whether the scan stands at the start of a line. *)
Fixpoint fence_line_from (bol : bool) (s : pystr) : bool :=
  match s with
  | [] => false
  | c :: s' =>
      (bol && startswith (lit "```") s) || fence_line_from (c =? NL)%N s'
  end.

Definition has_fence_line (s : pystr) : bool := fence_line_from true s.

(** Pieces of the f-string of the fallback playbook. *)
Definition DQ : N := 34.
Definition EM_DASH : N := 8212.
Definition ln (s : pystr) : pystr := s ++ [NL].
Definition q (s : pystr) : pystr := DQ :: s ++ [DQ].

(** How a call of [yaml.safe_load] ends: it returns, it raises
    [yaml.YAMLError], or it raises something else ([ValueError] on a
    date such as [2001-13-45], for one). *)
Inductive SafeLoad : Type :=
| Loads
| RaisesYAMLError
| RaisesOther.

(** The exception passes [except yaml.YAMLError]. *)
Definition escapes (r : SafeLoad) : bool :=
  match r with
  | RaisesOther => true
  | _ => false
  end.

Section WithLower.
(** [str.lower] is Python's; the splitter is parametric in it. *)
Variable lower : pystr → pystr.
(** [yaml.safe_load] is PyYAML's; the splitter is parametric in how it
    ends on a text. *)
Variable safe_load : pystr → SafeLoad.

(** [company_name.lower().replace(" ", "").replace("-", "").replace("_", "")] *)
Definition company_id_of (company_name : pystr) : pystr :=
  remove_char 95 (remove_char 45 (remove_char 32 (lower company_name))).

(** The f-string of [_generate_fallback_playbook], line by line; in
    the source every one of these lines is followed by a newline. *)
Definition fallback_lines (company_id company_name home_url : pystr)
    : list pystr :=
  [ lit "meta:";
    lit "  company_id: " ++ q (lit "persona_" ++ company_id);
    lit "  name: " ++ q (lit "Full " ++ company_name ++ lit " Demo");
    lit "  description: " ++ q (lit "Walk through the core features");
    lit "  estimated_duration: " ++ q (lit "2-3 minutes");
    lit "  start_url: " ++ q home_url;
    [];
    lit "triggers:";
    lit "  - " ++ q (lit "give me a demo");
    lit "  - " ++ q (lit "show me everything");
    lit "  - " ++ q (lit "full tour");
    [];
    lit "steps:";
    lit "  - id: " ++ q (lit "intro");
    lit "    screen: " ++ q (lit "dashboard");
    lit "    narrate_intent: "
      ++ q (lit "welcome the user and introduce the product");
    [];
    lit "  - id: " ++ q (lit "closing");
    lit "    narrate_intent: "
      ++ q (lit "wrap up and ask if they have questions");
    [];
    lit "fallback_narration:";
    lit "  action_failed: "
      ++ q (lit "Hmm, that didn't work. Let me try another way.");
    lit "  element_not_found: "
      ++ q (lit "I'm having trouble finding that. Let me describe it instead.");
    lit "  demo_interrupted: "
      ++ q (lit "Got it " ++ [EM_DASH]
              ++ lit " I'll pause here. What would you like to know?") ].

(** [YAMLGenerator._generate_fallback_playbook] *)
Definition _generate_fallback_playbook (company_name home_url : pystr) : pystr :=
  let company_id := company_id_of company_name in
  concat (ln <$> fallback_lines company_id company_name home_url).

(** [YAMLGenerator._parse_response] up to the validation: the two
    texts the strategies give, cleaned by [_clean_yaml].
    [split] never returns an empty list, so [parts[0]] is defined. *)
Definition response_texts (content company_name home_url : pystr)
    : pystr * pystr :=
  let '(persona_yaml, playbook_yaml) :=
    if contains MARKER content then
      let parts := split MARKER content in
      (strip (default [] (parts !! 0%nat)),
       if (1 <? length parts)%nat then strip (default [] (parts !! 1%nat))
       else [])
    else
      match search re_playbook_start content with
      | Some split_pos =>
          (strip (take split_pos content), strip (drop split_pos content))
      | None =>
          (strip content, _generate_fallback_playbook company_name home_url)
      end
  in
  (_clean_yaml persona_yaml, _clean_yaml playbook_yaml).

(** [YAMLGenerator._parse_response].  Each text goes through
    [yaml.safe_load] inside a [try] that catches [yaml.YAMLError] only:
    on that one a warning is printed and nothing changes; any other
    exception leaves [_parse_response], which then returns nothing
    ([None]).  The persona is loaded first. *)
Definition _parse_response (content company_name home_url : pystr)
    : option (pystr * pystr) :=
  let '(persona_yaml, playbook_yaml) :=
    response_texts content company_name home_url in
  match safe_load persona_yaml with
  | RaisesOther => None
  | _ =>
      match safe_load playbook_yaml with
      | RaisesOther => None
      | _ => Some (persona_yaml, playbook_yaml)
      end
  end.
End WithLower.

(** [str.lower] restricted to ASCII letters; it agrees with Python's on
    every string of ASCII characters. *)
Definition ascii_lower (s : pystr) : pystr :=
  (λ c, if ((65 <=? c) && (c <=? 90))%N then (c + 32)%N else c) <$> s.

(** [yaml.safe_load] on the texts of the examples: each of them loads,
    except the mapping with the date [2001-13-45], on which the
    timestamp constructor raises [ValueError]. *)
Definition yaml_load (s : pystr) : SafeLoad :=
  if bool_decide (s = lit "date: 2001-13-45") then RaisesOther else Loads.

End Generator.

(** ** scraper.py: the crawler *)
Module Scraper.
Import PyStr.

(** *** Data *)

(** The [type] of a clickable: the page script emits ['button'] or
    ['link']. *)
Inductive ClickType : Type := Button | Link.

Global Instance ClickType_eq_dec : EqDecision ClickType.
Proof. solve_decision. Defined.

(** [{type, text, href?}] *)
Record Clickable : Type := mkClickable {
  c_type : ClickType;
  c_text : pystr;
  c_href : option pystr
}.

(** [{text, href?, isTab?}]; [href] is [null] for tab items. *)
Record NavItem : Type := mkNavItem {
  n_text : pystr;
  n_href : option pystr;
  n_isTab : bool
}.

(** An entry of [pages_data].  It is a Python dict: a field that one of
    the two construction sites leaves out is [None] here. *)
Record PageRecord : Type := mkPageRecord {
  url : pystr;
  title : pystr;
  text : pystr;
  clickables : option (list Clickable);
  nav_items : option (list NavItem);
  is_tab : option bool;
  tab_name : option pystr
}.

Global Instance Clickable_eq_dec : EqDecision Clickable.
Proof. solve_decision. Defined.

Global Instance NavItem_eq_dec : EqDecision NavItem.
Proof. solve_decision. Defined.

Global Instance PageRecord_eq_dec : EqDecision PageRecord.
Proof. solve_decision. Defined.

(** What the browser hands back inside the [try] block of
    [_scrape_page]: [page.title()] and the three [page.evaluate] calls
    ([document.body.innerText] is a string). *)
Record Loaded : Type := mkLoaded {
  page_title : pystr;
  body_text : pystr;
  page_clickables : list Clickable;
  page_nav_items : list NavItem
}.

(** What the browser does for one tab element of [_click_tabs]. *)
Record TabOutcome : Type := mkTabOutcome {
  tab_inner_text : option pystr;  (* [None]: [inner_text()] raised *)
  tab_click_ok : bool;            (* [false]: [click()] raised *)
  tab_url : pystr;                (* [page.url] after the click *)
  tab_body_text : option pystr;   (* [None]: [evaluate] raised *)
  tab_title : option pystr        (* [None]: [title()] raised *)
}.

(** The environment of a crawl. *)
Record World : Type := mkWorld {
  (** [urlparse(u).netloc]; [None] when [urlparse] raises [ValueError]. *)
  urlparse_netloc : pystr → option pystr;
  (** Loading and reading a page; [None] when anything in the [try]
      block of [_scrape_page] raises. *)
  load : pystr → option Loaded;
  (** The order in which [list(nav_urls)] enumerates the set. *)
  set_order : gset pystr → list pystr;
  (** [_click_tabs]: going back to the start URL and querying the tab
      elements ([None] when that raises), then one outcome per tab. *)
  tab_elements : option (list TabOutcome)
}.

(** The fields of [self]. *)
Record Scraper : Type := mkScraper {
  start_url : pystr;
  max_pages : Z;
  base_domain : pystr;
  visited_urls : gset pystr;
  pages_data : list PageRecord
}.

Definition set_visited (v : gset pystr) (self : Scraper) : Scraper :=
  mkScraper (start_url self) (max_pages self) (base_domain self) v
    (pages_data self).

Definition set_pages (ps : list PageRecord) (self : Scraper) : Scraper :=
  mkScraper (start_url self) (max_pages self) (base_domain self)
    (visited_urls self) ps.

(** [{"home_url": ..., "pages": ...}] *)
Record CrawlResult : Type := mkCrawlResult {
  home_url : pystr;
  pages : list PageRecord
}.

(** *** Methods: state and exceptions

    A method runs on [self] and either returns a value or raises; the
    mutations it made before raising stay. *)
Definition M (A : Type) : Type := Scraper → option A * Scraper.

Definition ret {A} (a : A) : M A := λ self, (Some a, self).
Definition raise {A} : M A := λ self, (None, self).
Definition bind {A B} (m : M A) (f : A → M B) : M B :=
  λ self,
    match m self with
    | (Some a, self') => f a self'
    | (None, self') => (None, self')
    end.
Definition get : M Scraper := λ self, (Some self, self).
Definition modify (f : Scraper → Scraper) : M unit := λ self, (Some tt, f self).

(** [try: m except Exception: pass] *)
Definition try_pass (m : M unit) : M unit :=
  λ self,
    match m self with
    | (None, self') => (Some tt, self')
    | r => r
    end.

Notation "'let*' x := m 'in' k" := (bind m (λ x, k))
  (at level 10, x name, m at level 100, k at level 200,
   format "'[v' 'let*'  x  :=  m  'in'  '/' k ']'").

(** [for x in l: body(x)] *)
Fixpoint for_each {A} (l : list A) (body : A → M unit) : M unit :=
  match l with
  | [] => ret tt
  | x :: l' => let* _ := body x in for_each l' body
  end.

(** [WebsiteScraper.__init__]; [None] when [urlparse] raises. *)
Definition __init__ (w : World) (start_url : pystr) (max_pages : Z) : option Scraper :=
  d ← urlparse_netloc w start_url;
  Some (mkScraper start_url max_pages d ∅ []).

(** The dict [page_data] of [_scrape_page]. *)
Definition page_data_of (url : pystr) (pg : Loaded) : PageRecord :=
  {| url := url;
     title := page_title pg;
     text := take 15000 (body_text pg);
     clickables := Some (take 50 (page_clickables pg));
     nav_items := Some (take 20 (page_nav_items pg));
     is_tab := None;
     tab_name := None |}.

(** The dict [tab_data] of [_click_tabs]. *)
Definition tab_data_of (current_url title tab_text text : pystr) : PageRecord :=
  {| url := current_url;
     title := title ++ lit " - " ++ strip tab_text;
     text := take 15000 text;
     clickables := None;
     nav_items := None;
     is_tab := Some true;
     tab_name := Some (strip tab_text) |}.

(** [WebsiteScraper._scrape_page] *)
Definition _scrape_page (w : World) (url : pystr) : M (option PageRecord) :=
  let* self := get in
  if bool_decide (url ∈ visited_urls self) then ret None
  else if (max_pages self <=? Z.of_nat (size (visited_urls self)))%Z then ret None
  else
    match urlparse_netloc w url with
    | None => raise
    | Some d =>
        if bool_decide (d ≠ base_domain self) then ret None
        else
          let* _ := modify (λ self, set_visited ({[url]} ∪ visited_urls self) self) in
          match load w url with
          | None => ret None
          | Some pg =>
              let page_data := page_data_of url pg in
              let* _ := modify (λ self, set_pages (pages_data self ++ [page_data]) self) in
              ret (Some page_data)
          end
    end.

(** [if href and urlparse(href).netloc == self.base_domain:
       nav_urls.add(href)] *)
Definition add_candidate (w : World) (base : pystr) (href : option pystr)
    (nav_urls : gset pystr) : option (gset pystr) :=
  match href with
  | Some (c :: h) =>
      d ← urlparse_netloc w (c :: h);
      Some (if bool_decide (d = base) then {[c :: h]} ∪ nav_urls else nav_urls)
  | _ => Some nav_urls
  end.

Fixpoint add_candidates (w : World) (base : pystr) (hrefs : list (option pystr))
    (nav_urls : gset pystr) : option (gset pystr) :=
  match hrefs with
  | [] => Some nav_urls
  | h :: hrefs' =>
      nav_urls' ← add_candidate w base h nav_urls;
      add_candidates w base hrefs' nav_urls'
  end.

(** The hrefs the two collection loops of [_discover_pages] look at, in
    order: every nav item, then every clickable of type ['link']. *)
Definition first_page_hrefs (first_page : PageRecord) : list (option pystr) :=
  (n_href <$> default [] (nav_items first_page))
  ++ (c_href <$> filter (λ c, c_type c = Link) (default [] (clickables first_page))).

(** The set [nav_urls] once both loops are through; [None] when
    [urlparse] raised on the way. *)
Definition nav_urls_of (w : World) (base : pystr) (first_page : PageRecord)
    : option (gset pystr) :=
  add_candidates w base (first_page_hrefs first_page) ∅.

(** [list(nav_urls)[:self.max_pages - 1]] *)
Definition attempted (w : World) (max_pages : Z) (nav_urls : gset pystr) : list pystr :=
  slice_to (max_pages - 1) (set_order w nav_urls).

(** One round of the loop of [_click_tabs], inside its own [try]. *)
Definition click_tab (tab : TabOutcome) : M unit :=
  match tab_inner_text tab with
  | None => raise
  | Some tab_text =>
      if bool_decide (strip tab_text = []) then ret tt
      else if negb (tab_click_ok tab) then raise
      else
        let current_url := tab_url tab in
        let* self := get in
        if negb (bool_decide (current_url ∈ visited_urls self)) || true then
          match tab_body_text tab with
          | None => raise
          | Some text =>
              match tab_title tab with
              | None => raise
              | Some title =>
                  let tab_data := tab_data_of current_url title tab_text text in
                  let* self := get in
                  if negb (existsb
                             (λ p, bool_decide (take 500 (Scraper.text p) = take 500 text))
                             (pages_data self))
                  then modify (λ self, set_pages (pages_data self ++ [tab_data]) self)
                  else ret tt
              end
          end
        else ret tt
  end.

(** [WebsiteScraper._click_tabs] *)
Definition _click_tabs (w : World) : M unit :=
  try_pass
    match tab_elements w with
    | None => raise
    | Some tabs => for_each (take 5 tabs) (λ tab, try_pass (click_tab tab))
    end.

(** The body of the scraping loop of [_discover_pages]:
    [if url not in self.visited_urls: await self._scrape_page(page, url)] *)
Definition scrape_unvisited (w : World) (url : pystr) : M unit :=
  let* self := get in
  if bool_decide (url ∉ visited_urls self)
  then let* _ := _scrape_page w url in ret tt
  else ret tt.

(** [WebsiteScraper._discover_pages] *)
Definition _discover_pages (w : World) : M unit :=
  let* self := get in
  match pages_data self with
  | [] => ret tt
  | first_page :: _ =>
      match nav_urls_of w (base_domain self) first_page with
      | None => raise
      | Some nav_urls =>
          let* _ :=
            for_each (attempted w (max_pages self) nav_urls)
              (scrape_unvisited w) in
          _click_tabs w
      end
  end.

(** The body of [scrape]: the [try] block with its catch-all handler;
    the result is [self] when [scrape] returns. *)
Definition crawl (w : World) (self : Scraper) : Scraper :=
  snd (try_pass (let* _ := _scrape_page w (start_url self) in _discover_pages w) self).

(** [WebsiteScraper.scrape] *)
Definition scrape (w : World) (self : Scraper) : CrawlResult :=
  let self' := crawl w self in
  {| home_url := start_url self'; pages := pages_data self' |}.

(** [scrape_website]; [None] when the constructor raises. *)
Definition scrape_website (w : World) (url : pystr) (max_pages : Z)
    : option CrawlResult :=
  scrape w <$> __init__ w url max_pages.

(** *** Vocabulary of the properties *)

(** The states [self] goes through under calls of [_scrape_page], with
    whatever URLs. *)
Inductive scrape_steps (w : World) (self : Scraper) : Scraper → Prop :=
| scrape_steps_refl : scrape_steps w self self
| scrape_steps_call (self' : Scraper) (url : pystr) :
    scrape_steps w self self' →
    scrape_steps w self (snd (_scrape_page w url self')).

(** The three guards in front of [self.visited_urls.add(url)]. *)
Definition gate_closed (w : World) (url : pystr) (self : Scraper) : Prop :=
  url ∈ visited_urls self
  ∨ (max_pages self ≤ Z.of_nat (size (visited_urls self)))%Z
  ∨ ∃ d, urlparse_netloc w url = Some d ∧ d ≠ base_domain self.

(** The two shapes an entry of [pages_data] comes in. *)
Definition scraped_shape (p : PageRecord) : Prop :=
  is_Some (clickables p) ∧ is_Some (nav_items p)
  ∧ is_tab p = None ∧ tab_name p = None.

Definition tab_shape (p : PageRecord) : Prop :=
  clickables p = None ∧ nav_items p = None
  ∧ is_tab p = Some true ∧ is_Some (tab_name p).

(** [page.get('is_tab')] is falsy. *)
Definition not_tab (p : PageRecord) : bool :=
  negb (default false (is_tab p)).

(** What holds of [self] between two calls of [_scrape_page]. *)
Definition within_budget (self : Scraper) : Prop :=
  (Z.of_nat (size (visited_urls self)) ≤ max_pages self)%Z.

Definition crawl_inv (w : World) (self : Scraper) : Prop :=
  length (pages_data self) ≤ size (visited_urls self)
  ∧ Forall (λ p, scraped_shape p
                 ∧ urlparse_netloc w (url p) = Some (base_domain self)
                 ∧ url p ∈ visited_urls self)
      (pages_data self).

End Scraper.

(** ** Concrete environments used to run the model *)
Module Fixtures.
Import PyStr Scraper.

(** [urlparse(u).netloc] for a URL of printable ASCII characters, after
    [urllib.parse.urlsplit]: an optional scheme ([letter (letter | digit
    | + | - | .)* :]), then, behind [//], everything up to the first of
    [/ ? #]; a bracket without its partner raises. *)
Definition is_alpha (c : N) : bool :=
  (((65 <=? c) && (c <=? 90)) || ((97 <=? c) && (c <=? 122)))%N.

Definition scheme_char (c : N) : bool :=
  (is_alpha c || ((48 <=? c) && (c <=? 57)) || (c =? 43) || (c =? 45) || (c =? 46))%N.

Definition netloc_end (c : N) : bool := ((c =? 47) || (c =? 63) || (c =? 35))%N.

Fixpoint take_until (p : N → bool) (s : pystr) : pystr :=
  match s with
  | [] => []
  | c :: s' => if p c then [] else c :: take_until p s'
  end.

Definition after_scheme (url : pystr) : pystr :=
  match find (lit ":") url, url with
  | Some (S i), c :: _ =>
      if is_alpha c && forallb scheme_char (take (S i) url)
      then drop (S (S i)) url else url
  | _, _ => url
  end.

Definition ascii_netloc (url : pystr) : option pystr :=
  let rest := after_scheme url in
  if startswith (lit "//") rest then
    let netloc := take_until netloc_end (drop 2 rest) in
    if xorb (bool_decide (91%N ∈ netloc)) (bool_decide (93%N ∈ netloc))
    then None else Some netloc
  else Some [].

(** A site as a table from URL to what the browser reads there; a URL
    outside the table fails to load. *)
Definition site_load (site : list (pystr * Loaded)) (u : pystr) : option Loaded :=
  snd <$> head (filter (λ e, e.1 = u) site).

(** An enumeration order that yields [u] first when it is in the set. *)
Definition front_first (u : pystr) (X : gset pystr) : list pystr :=
  if bool_decide (u ∈ X) then u :: elements (X ∖ {[u]}) else elements X.

Definition home : pystr := lit "https://example.com/".
Definition about : pystr := lit "https://example.com/about".
Definition pricing : pystr := lit "https://example.com/pricing".
Definition docs : pystr := lit "https://example.com/docs".
Definition www_pricing : pystr := lit "https://www.example.com/pricing".
Definition partner : pystr := lit "https://partner.example.org/landing".

Definition nav_link (label : string) (href : pystr) : NavItem :=
  mkNavItem (lit label) (Some href) false.
Definition link_to (label : string) (href : pystr) : Clickable :=
  mkClickable Link (lit label) (Some href).
Definition button_of (label : string) : Clickable :=
  mkClickable Button (lit label) None.

Definition simple_page (ttl body : string) : Loaded :=
  mkLoaded (lit ttl) (lit body) [] [].

(** A home page with three same-domain links, none of them to itself. *)
Definition home_page : Loaded :=
  mkLoaded (lit "Home") (lit "Welcome to Example")
    [button_of "Sign up"; link_to "Pricing" pricing; link_to "Partner" partner]
    [nav_link "About" about; nav_link "Docs" docs].

(** A home page whose navigation bar links back to the home page. *)
Definition home_page_self_link : Loaded :=
  mkLoaded (lit "Home") (lit "Welcome to Example")
    [link_to "Pricing" pricing]
    [nav_link "Home" home; nav_link "About" about].

Definition inner_pages : list (pystr * Loaded) :=
  [(about, simple_page "About" "About us");
   (pricing, simple_page "Pricing" "Plans and prices");
   (docs, simple_page "Docs" "Documentation")].

(** A tab that changes the page text and keeps the URL. *)
Definition features_tab : TabOutcome :=
  mkTabOutcome (Some (lit " Features ")) true home
    (Some (lit "Feature list")) (Some (lit "Home")).

(** A tab element that is a link to another site. *)
Definition partner_tab : TabOutcome :=
  mkTabOutcome (Some (lit "Partners")) true partner
    (Some (lit "Partner landing page")) (Some (lit "Partner")).

Definition plain_world : World :=
  mkWorld ascii_netloc (site_load ((home, home_page) :: inner_pages))
    elements (Some [features_tab]).

Definition partner_tab_world : World :=
  mkWorld ascii_netloc (site_load ((home, home_page) :: inner_pages))
    elements (Some [partner_tab]).

(** The registered domain the visit-gating contract speaks of, for a
    host under a one-label public suffix such as [.com]: the last two
    labels of the host.  The program computes no such thing; it serves
    to read the contract as it is worded. *)
Fixpoint join (sep : pystr) (parts : list pystr) : pystr :=
  match parts with
  | [] => []
  | [p] => p
  | p :: ps => p ++ sep ++ join sep ps
  end.

Definition registered_domain (host : pystr) : pystr :=
  let labels := split (lit ".") host in
  join (lit ".") (drop (length labels - 2) labels).

Definition self_link_world : World :=
  mkWorld ascii_netloc (site_load ((home, home_page_self_link) :: inner_pages))
    (front_first home) (Some []).

End Fixtures.

(** ** generator.py: the content formatter and [generate] *)
Module Formatter.
Import PyStr Generator Scraper.

(** [str(i)] for an index. *)
Fixpoint uint_chars (u : Decimal.uint) : pystr :=
  match u with
  | Decimal.Nil => []
  | Decimal.D0 u => 48%N :: uint_chars u
  | Decimal.D1 u => 49%N :: uint_chars u
  | Decimal.D2 u => 50%N :: uint_chars u
  | Decimal.D3 u => 51%N :: uint_chars u
  | Decimal.D4 u => 52%N :: uint_chars u
  | Decimal.D5 u => 53%N :: uint_chars u
  | Decimal.D6 u => 54%N :: uint_chars u
  | Decimal.D7 u => 55%N :: uint_chars u
  | Decimal.D8 u => 56%N :: uint_chars u
  | Decimal.D9 u => 57%N :: uint_chars u
  end.

Definition str_of_nat (n : nat) : pystr := uint_chars (Nat.to_uint n).

(** [sep.join(parts)] *)
Fixpoint str_join (sep : pystr) (parts : list pystr) : pystr :=
  match parts with
  | [] => []
  | [p] => p
  | p :: ps => p ++ sep ++ str_join sep ps
  end.

(** [[c['text'] for c in clickables if c.get('type') == t]] *)
Definition labels_of (t : ClickType) (cs : list Clickable) : list pystr :=
  c_text <$> filter (λ c, c_type c = t) cs.

(** [', '.join(labels[:n]) if labels else 'None found'] *)
Definition label_line (n : nat) (labels : list pystr) : pystr :=
  match labels with
  | [] => lit "None found"
  | _ => str_join (lit ", ") (take n labels)
  end.

(** [f" (Tab: {page.get('tab_name')})" if page.get('is_tab') else ""];
    a missing [tab_name] prints as [None]. *)
Definition tab_info (page : PageRecord) : pystr :=
  if default false (is_tab page)
  then lit " (Tab: " ++ default (lit "None") (tab_name page) ++ lit ")"
  else [].

(** The f-string [part] of [_format_pages_content] for page number [i].
    A [PageRecord] always has [url], [title] and [text], so the defaults
    of [page.get] for them stay unused. *)
Definition format_page (i : nat) (page : PageRecord) : pystr :=
  let clickables := default [] (clickables page) in
  let buttons := labels_of Button clickables in
  let links := labels_of Link clickables in
  [NL] ++ lit "=== PAGE " ++ str_of_nat i ++ tab_info page ++ lit " ===" ++ [NL]
  ++ lit "URL: " ++ url page ++ [NL]
  ++ lit "Title: " ++ title page ++ [NL]
  ++ [NL]
  ++ lit "BUTTONS/CLICKABLES: " ++ label_line 20 buttons ++ [NL]
  ++ [NL]
  ++ lit "LINKS: " ++ label_line 15 links ++ [NL]
  ++ [NL]
  ++ lit "PAGE CONTENT:" ++ [NL]
  ++ take 8000 (text page) ++ [NL].

(** [YAMLGenerator._format_pages_content]; [enumerate] counts from 1. *)
Definition _format_pages_content (scraped_data : CrawlResult) : pystr :=
  str_join [NL] (imap (λ i page, format_page (S i) page) (pages scraped_data)).

(** [YAMLGenerator.generate] and [generate_yamls]; [None] when an
    exception leaves them.  The answer of the completion service is the
    environment's: [response] is [response.choices[0].message.content],
    or [None] when the call raises or the answer carries no text
    ([_parse_response] then raises on it).  The prompt built from
    [_format_pages_content] only goes into the request. *)
Definition generate (lower : pystr → pystr) (safe_load : pystr → SafeLoad)
    (response : option pystr) (scraped_data : CrawlResult)
    (company_name : pystr) : option (pystr * pystr) :=
  content ← response;
  _parse_response lower safe_load content company_name (home_url scraped_data).

End Formatter.

(** ** main.py *)
Module Main.
Import PyStr Generator Scraper Formatter.

(** [f"persona_{company_id}.yaml"] and [f"{company_id}_playbook.yaml"] *)
Definition persona_filename (company_id : pystr) : pystr :=
  lit "persona_" ++ company_id ++ lit ".yaml".

Definition playbook_filename (company_id : pystr) : pystr :=
  company_id ++ lit "_playbook.yaml".

(** The machine under [main]: whether standard output takes the
    messages (each of them holds an emoji or a box character, which an
    encoding may refuse), whether
    [output_dir.mkdir(parents=True, exist_ok=True)] succeeds, and
    whether [open(path, 'w')] and the [write] of a text succeed for a
    file name in the output directory.  The banner, [mkdir] and the two
    writes stand outside every [try]. *)
Record Host : Type := mkHost {
  stdout_ok : bool;
  mkdir_ok : bool;
  write_ok : pystr → pystr → bool
}.

(** How the run of [main] ends.
    - [Exit code]: the process ends with this status and no file saved,
      by [sys.exit(code)] or by an exception that nothing catches (the
      interpreter then ends with status 1);
    - [PersonaOnly]: the persona file is saved, then writing the
      playbook raises and the process ends with status 1;
    - [Saved]: both files are saved, as (name, content), in the order
      of writing, and [main] returns. *)
Inductive Outcome : Type :=
| Exit (code : Z)
| PersonaOnly (persona_file : pystr * pystr)
| Saved (persona_file playbook_file : pystr * pystr).

(** [args.openai_key] is falsy. *)
Definition no_key (openai_key : option pystr) : bool :=
  match openai_key with
  | Some (_ :: _) => false
  | _ => true
  end.

(** [main], from the parsed arguments on.  Of the printing only its
    failure is kept: without a key the run ends with status 1 whether
    the message is printed or not, and the banner is the first message
    of every other run. *)
Definition main (w : World) (lower : pystr → pystr)
    (safe_load : pystr → SafeLoad) (host : Host) (response : option pystr)
    (url company : pystr) (openai_key : option pystr) (max_pages : Z) : Outcome :=
  if no_key openai_key then Exit 1
  else if negb (mkdir_ok host) then Exit 1
  else if negb (stdout_ok host) then Exit 1
  else
    let company_id := company_id_of lower company in
    match scrape_website w url max_pages with
    | None => Exit 1
    | Some scraped_data =>
        let pages_count := length (pages scraped_data) in
        if (pages_count =? 0)%nat then Exit 1
        else
          match generate lower safe_load response scraped_data company with
          | None => Exit 1
          | Some (persona_yaml, playbook_yaml) =>
              let persona_path := persona_filename company_id in
              let playbook_path := playbook_filename company_id in
              if negb (write_ok host persona_path persona_yaml) then Exit 1
              else if negb (write_ok host playbook_path playbook_yaml)
              then PersonaOnly (persona_path, persona_yaml)
              else Saved (persona_path, persona_yaml)
                         (playbook_path, playbook_yaml)
          end
    end.

(** A machine on which every operation of [main] succeeds. *)
Definition working_host : Host := mkHost true true (λ _ _, true).

End Main.

(** ** Vocabulary of the crawl result *)
Module CrawlShape.
Import PyStr Scraper.

(** A record made by [_scrape_page]: what the browser read at its URL,
    cut to the limits of the dict [page_data]. *)
Definition scraped_record (w : World) (p : PageRecord) : Prop :=
  ∃ pg, load w (url p) = Some pg ∧ p = page_data_of (url p) pg.

(** A record [_click_tabs] appends behind the records [prev]: built from
    a label that is not blank, with a text whose first 500 characters no
    record of [prev] starts with. *)
Definition tab_record_after (prev : list PageRecord) (p : PageRecord) : Prop :=
  ∃ current_url title tab_text text,
    p = tab_data_of current_url title tab_text text
    ∧ strip tab_text ≠ []
    ∧ Forall (λ q, take 500 (Scraper.text q) ≠ take 500 text) prev.

(** The record [_click_tabs] builds from what the browser returns for
    the tab element [tab]: a label that is not blank, a click and the
    reads of text and title that succeed. *)
Definition tab_record_of (tab : TabOutcome) (p : PageRecord) : Prop :=
  ∃ tab_text text title,
    tab_inner_text tab = Some tab_text
    ∧ strip tab_text ≠ []
    ∧ tab_click_ok tab = true
    ∧ tab_body_text tab = Some text
    ∧ tab_title tab = Some title
    ∧ p = tab_data_of (tab_url tab) title tab_text text.

(** Every record of [recs] is such a record behind [prev] and the records
    of [recs] in front of it. *)
Definition tab_records_after (prev recs : list PageRecord) : Prop :=
  ∀ pre p post, recs = pre ++ p :: post → tab_record_after (prev ++ pre) p.

(** What [_scrape_page] keeps true of the records it appends. *)
Definition scraped_inv (w : World) (self : Scraper) : Prop :=
  NoDup (url <$> pages_data self)
  ∧ Forall (λ p, scraped_record w p ∧ url p ∈ visited_urls self)
      (pages_data self).

End CrawlShape.

(** * Properties *)

(** ** Strings *)
Section StringFacts.
Import PyStr.

Lemma startswith_prefix (p s : pystr) :
  startswith p s = true ↔ ∃ r, s = p ++ r.
Proof.
  revert s; induction p as [|a p IH]; intros s; simpl.
  - split; [intros _; by exists s | done].
  - destruct s as [|b s].
    + split; [done | intros [r Hr]; discriminate].
    + rewrite andb_true_iff, IH, N.eqb_eq. split.
      * intros [-> [r ->]]. by exists r.
      * intros [r Hr]. injection Hr as -> ->. split; [done | by exists r].
Qed.

Lemma startswith_length (p s : pystr) :
  startswith p s = true → length p ≤ length s.
Proof.
  intros [r ->]%startswith_prefix. rewrite length_app. lia.
Qed.

(** [find] returns the leftmost position at which [sep] occurs. *)
Lemma find_Some (sep s : pystr) (i : nat) :
  find sep s = Some i →
  startswith sep (drop i s) = true
  ∧ (∀ j, j < i → startswith sep (drop j s) = false).
Proof.
  revert i; induction s as [|c s IH]; intros i; simpl.
  - destruct (startswith sep []) eqn:E; [|done].
    intros [= <-]. split; [done | lia].
  - destruct (startswith sep (c :: s)) eqn:E.
    + intros [= <-]. split; [done | lia].
    + destruct (find sep s) as [k|] eqn:F; [|done].
      intros [= <-]. destruct (IH k eq_refl) as [H1 H2].
      split; [done |]. intros [|j] Hj; [done |]. apply H2. lia.
Qed.

Lemma find_None (sep s : pystr) (j : nat) :
  find sep s = None → startswith sep (drop j s) = false.
Proof.
  revert j; induction s as [|c s IH]; intros j; simpl.
  - destruct (startswith sep []) eqn:E; [done |]. by destruct j.
  - destruct (startswith sep (c :: s)) eqn:E; [done |].
    destruct (find sep s) eqn:F; [done |]. intros _.
    destruct j as [|j]; [done |]. by apply IH.
Qed.

Lemma find_Some_length (sep s : pystr) (i : nat) :
  find sep s = Some i → i + length sep ≤ length s.
Proof.
  revert i; induction s as [|c s IH]; intros i; simpl.
  - destruct (startswith sep []) eqn:E; [|done].
    intros [= <-]. apply startswith_length in E. simpl in *; lia.
  - destruct (startswith sep (c :: s)) eqn:E.
    + intros [= <-]. apply startswith_length in E. simpl in *; lia.
    + destruct (find sep s) as [k|] eqn:F; [|done].
      intros [= <-]. specialize (IH k eq_refl). simpl; lia.
Qed.

(** The counter of [split] is large enough: past the length of the
    subject the result no longer depends on it. *)
Lemma split_fuel_enough (sep : pystr) (n m : nat) (s : pystr) :
  sep ≠ [] → length s < n → length s < m →
  split_fuel n sep s = split_fuel m sep s.
Proof.
  intros Hsep. revert m s; induction n as [|n IH]; intros m s Hn Hm; [lia |].
  destruct m as [|m]; [lia |]. simpl.
  destruct (find sep s) as [i|] eqn:F; [|done].
  f_equal. pose proof (find_Some_length _ _ _ F) as Hi.
  assert (0 < length sep) by (destruct sep; [done | simpl; lia]).
  apply IH; rewrite length_drop; lia.
Qed.

Lemma split_unfold (sep s : pystr) :
  sep ≠ [] →
  split sep s =
    match find sep s with
    | None => [s]
    | Some i => take i s :: split sep (drop (i + length sep) s)
    end.
Proof.
  intros Hsep. unfold split at 1. simpl.
  destruct (find sep s) as [i|] eqn:F; [|done].
  f_equal. pose proof (find_Some_length _ _ _ F) as Hi.
  assert (0 < length sep) by (destruct sep; [done | simpl; lia]).
  unfold split. apply split_fuel_enough; [done | | ]; rewrite ?length_drop; lia.
Qed.

Lemma contains_find (sep s : pystr) :
  contains sep s = true ↔ is_Some (find sep s).
Proof. unfold contains. by rewrite bool_decide_eq_true. Qed.

Lemma contains_false_find (sep s : pystr) :
  contains sep s = false ↔ find sep s = None.
Proof.
  unfold contains. rewrite bool_decide_eq_false, <- eq_None_not_Some. done.
Qed.

Lemma lstrip_id (s : pystr) :
  (∀ c, head s = Some c → isspace c = false) → lstrip s = s.
Proof.
  destruct s as [|c s]; [done |]. intros H. simpl. by rewrite (H c eq_refl).
Qed.

Lemma rstrip_id (s : pystr) :
  (∀ c, last s = Some c → isspace c = false) → rstrip s = s.
Proof.
  intros H. unfold rstrip. rewrite lstrip_id; [apply reverse_involutive |].
  intros c Hc. apply H. by rewrite <- head_reverse.
Qed.

Lemma strip_id (s : pystr) :
  (∀ c, head s = Some c → isspace c = false) →
  (∀ c, last s = Some c → isspace c = false) →
  strip s = s.
Proof.
  intros H1 H2. unfold strip. rewrite lstrip_id by done. by apply rstrip_id.
Qed.

(** The model on inputs whose outcome under Python is known. *)
Example split_marker_at_end :
  split (lit "---SPLIT---") (lit "A---SPLIT---") = [lit "A"; []].
Proof. reflexivity. Qed.

Example split_overlapping_dashes :
  split (lit "---SPLIT---") (lit "a------SPLIT------SPLIT---")
  = [lit "a---"; []; []].
Proof. reflexivity. Qed.

Example slice_negative_bound : slice_to (-1) [1; 2; 3] = [1; 2].
Proof. reflexivity. Qed.

Example strip_unicode_blank : strip ([160; 32] ++ lit "a b" ++ [9; 10])%N = lit "a b".
Proof. reflexivity. Qed.

End StringFacts.

(** ** The patterns of [_clean_yaml] *)
Section FenceFacts.
Import PyStr Re Generator.

Lemma rmatch_rlit {R} (l : pystr) (k : option N → pystr → option R)
    (prev : option N) (s : pystr) :
  is_Some (rmatch (rlit l) k prev s) → startswith l s = true.
Proof.
  revert prev s; induction l as [|c l IH]; intros prev s; [done |].
  cbn [rlit rmatch startswith]. destruct s as [|x s]; [by intros [? ?] |].
  rewrite (N.eqb_sym c x). destruct (x =? c)%N; [|by intros [? ?]].
  intros H. by rewrite (IH _ _ H).
Qed.

Lemma fence_open_needs_backticks (prev : option N) (s : pystr) (n : nat) :
  match_at re_fence_open prev s = Some n →
  at_bol prev = true ∧ startswith (lit "```") s = true.
Proof.
  unfold match_at, re_fence_open. cbn [rcat rmatch].
  destruct (at_bol prev); [|done]. intros H. split; [done |].
  assert (startswith (lit "```y") s = true) as [r ->]%startswith_prefix
    by (eapply rmatch_rlit; by rewrite H).
  apply startswith_prefix. by exists (121%N :: r).
Qed.

Lemma fence_close_needs_backticks (prev : option N) (s : pystr) (n : nat) :
  match_at re_fence_close prev s = Some n →
  at_bol prev = true ∧ startswith (lit "```") s = true.
Proof.
  unfold match_at, re_fence_close. cbn [rcat rmatch].
  destruct (at_bol prev); [|done]. intros H. split; [done |].
  eapply rmatch_rlit. by rewrite H.
Qed.

(** A substitution whose pattern needs a line that opens with three
    backticks leaves a text without such a line alone. *)
Lemma sub_go_no_fence (r : re) :
  (∀ prev s n, match_at r prev s = Some n →
               at_bol prev = true ∧ startswith (lit "```") s = true) →
  ∀ s prev, fence_line_from (at_bol prev) s = false → sub_go r 0 prev s = s.
Proof.
  intros Hr. induction s as [|c s IH]; intros prev Hs; [done |].
  cbn [fence_line_from] in Hs. apply orb_false_iff in Hs as [Hhere Hrest].
  cbn [sub_go].
  destruct (match_at r prev (c :: s)) as [n|] eqn:Hm.
  - destruct (Hr _ _ _ Hm) as [Hb Hp]. rewrite Hb, Hp in Hhere. done.
  - f_equal. by apply (IH (Some c)).
Qed.

Lemma sub_del_no_fence (r : re) (s : pystr) :
  (∀ prev s n, match_at r prev s = Some n →
               at_bol prev = true ∧ startswith (lit "```") s = true) →
  has_fence_line s = false → sub_del r s = s.
Proof. intros Hr Hs. by apply sub_go_no_fence. Qed.

Lemma clean_yaml_no_fence (s : pystr) :
  has_fence_line s = false → _clean_yaml s = strip s.
Proof.
  intros Hs. unfold _clean_yaml.
  rewrite (sub_del_no_fence re_fence_open) by (done || apply fence_open_needs_backticks).
  by rewrite (sub_del_no_fence re_fence_close) by (done || apply fence_close_needs_backticks).
Qed.

Example clean_yaml_fenced_block :
  _clean_yaml (lit "```yaml" ++ [NL] ++ lit "a: 1" ++ [NL] ++ lit "```" ++ [NL])
  = lit "a: 1".
Proof. vm_compute. reflexivity. Qed.

Example fence_close_backtracks_to_newline :
  sub_del re_fence_close (lit "```  " ++ [NL; NL] ++ lit "  x")
  = [NL] ++ lit "  x".
Proof. vm_compute. reflexivity. Qed.

Example fence_open_takes_following_blank_lines :
  sub_del re_fence_open (lit "```yml" ++ [NL; NL] ++ lit "  a: 1") = lit "a: 1".
Proof. vm_compute. reflexivity. Qed.

Example playbook_start_found :
  search re_playbook_start
    (lit "a: 1" ++ [NL] ++ lit "meta:" ++ [NL] ++ lit "  company_id: x") = Some 4.
Proof. vm_compute. reflexivity. Qed.

Example playbook_start_needs_indent :
  search re_playbook_start
    (lit "a: 1" ++ [NL] ++ lit "meta:" ++ [NL] ++ lit "company_id: x") = None.
Proof. vm_compute. reflexivity. Qed.

End FenceFacts.

(** ** The response splitter *)
Section SplitterFacts.
Import PyStr Re Generator.

(** C9, as the code has it.  A text in which no line opens with three
    backticks and that neither starts nor ends with whitespace is
    returned unchanged by [_clean_yaml], so cleaning it a second time
    changes nothing either. *)
Theorem C9_clean_yaml_keeps_clean_text (s : pystr) :
  has_fence_line s = false →
  (∀ c, head s = Some c → isspace c = false) →
  (∀ c, last s = Some c → isspace c = false) →
  _clean_yaml s = s ∧ _clean_yaml (_clean_yaml s) = _clean_yaml s.
Proof.
  intros Hf Hh Hl.
  assert (_clean_yaml s = s) as E.
  { rewrite clean_yaml_no_fence by done. by apply strip_id. }
  by rewrite !E.
Qed.

Lemma C9_witness :
  let s := lit "name: Maya" in
  _clean_yaml s = s ∧ _clean_yaml (_clean_yaml s) = _clean_yaml s.
Proof.
  apply (C9_clean_yaml_keeps_clean_text (lit "name: Maya")).
  - reflexivity.
  - intros c [= <-]. reflexivity.
  - intros c [= <-]. reflexivity.
Defined.

(** C9 as stated fails on arbitrary input: a fence behind a leading
    blank is no match for either pattern, [strip] moves it to the start
    of the line, and the second application deletes it. *)
Lemma C9_counterexample :
  let x := lit " ```yaml" ++ [NL] ++ lit "name: Maya" in
  _clean_yaml x = lit "```yaml" ++ [NL] ++ lit "name: Maya"
  ∧ _clean_yaml (_clean_yaml x) = lit "name: Maya"
  ∧ _clean_yaml (_clean_yaml x) ≠ _clean_yaml x.
Proof. vm_compute. repeat split; discriminate. Qed.

(** What [_parse_response] does with the two texts: it returns them
    unless [yaml.safe_load] raises past the handler on one of them. *)
Lemma parse_response_eq (lower : pystr → pystr) (safe_load : pystr → SafeLoad)
    (content company_name home_url persona playbook : pystr) :
  response_texts lower content company_name home_url = (persona, playbook) →
  _parse_response lower safe_load content company_name home_url
  = if escapes (safe_load persona) || escapes (safe_load playbook) then None
    else Some (persona, playbook).
Proof.
  intros E. unfold _parse_response. rewrite E.
  by destruct (safe_load persona), (safe_load playbook).
Qed.

Lemma parse_response_Some (lower : pystr → pystr) (safe_load : pystr → SafeLoad)
    (content company_name home_url : pystr) (r : pystr * pystr) :
  _parse_response lower safe_load content company_name home_url = Some r →
  r = response_texts lower content company_name home_url.
Proof.
  destruct (response_texts lower content company_name home_url) as [p q] eqn:E.
  rewrite (parse_response_eq _ _ _ _ _ _ _ E).
  destruct (_ || _); [done |]. by intros [= <-].
Qed.

Lemma texts_on_marker (lower : pystr → pystr)
    (content company_name home_url : pystr) (i : nat) :
  find MARKER content = Some i →
  let rest := drop (i + length MARKER) content in
  let second := match find MARKER rest with
                | Some j => take j rest
                | None => rest
                end in
  response_texts lower content company_name home_url
  = (_clean_yaml (strip (take i content)), _clean_yaml (strip second)).
Proof.
  intros Hi rest second. unfold response_texts.
  assert (contains MARKER content = true) as ->
    by (apply contains_find; by rewrite Hi).
  rewrite split_unfold by done. rewrite Hi. fold rest.
  rewrite (split_unfold MARKER rest) by done.
  subst second. by destruct (find MARKER rest).
Qed.

(** C2, as the code has it.  When the marker occurs, with [i] its first
    position, the persona is the text before [i] and the playbook is
    the text between that occurrence and the next one (all that follows
    when there is no next one), each stripped and then cleaned of
    fences.  The two texts are returned unless [yaml.safe_load] raises
    something other than [yaml.YAMLError] on one of them: then the
    exception leaves the splitter and nothing is returned.  Nothing
    behind the marker gives the empty playbook; and the response of the
    round-trip example splits into A and B when both load. *)
Theorem C2_split_on_marker (lower : pystr → pystr) (safe_load : pystr → SafeLoad)
    (content company_name home_url : pystr) (i : nat) :
  find MARKER content = Some i →
  let rest := drop (i + length MARKER) content in
  let second := match find MARKER rest with
                | Some j => take j rest
                | None => rest
                end in
  let persona := _clean_yaml (strip (take i content)) in
  let playbook := _clean_yaml (strip second) in
  _parse_response lower safe_load content company_name home_url
    = (if escapes (safe_load persona) || escapes (safe_load playbook) then None
       else Some (persona, playbook))
  ∧ (rest = [] → playbook = [])
  ∧ (escapes (safe_load (lit "A")) = false →
     escapes (safe_load (lit "B")) = false →
     _parse_response lower safe_load (lit "A" ++ [NL] ++ MARKER ++ [NL] ++ lit "B")
       company_name home_url = Some (lit "A", lit "B")).
Proof.
  intros Hi rest second persona playbook. split; [|split].
  - apply parse_response_eq. by apply texts_on_marker.
  - intros Hrest. subst playbook second. rewrite Hrest. by vm_compute.
  - intros HA HB.
    rewrite (parse_response_eq lower safe_load _ _ _ (lit "A") (lit "B"))
      by (by vm_compute).
    by rewrite HA, HB.
Qed.

Lemma C2_witness :
  _parse_response ascii_lower yaml_load (lit "name: Maya ---SPLIT--- meta: x")
    (lit "Acme") (lit "https://acme.example/")
  = Some (lit "name: Maya", lit "meta: x").
Proof.
  pose proof (C2_split_on_marker ascii_lower yaml_load
                (lit "name: Maya ---SPLIT--- meta: x")
                (lit "Acme") (lit "https://acme.example/") 11 eq_refl) as H.
  cbv zeta in H. destruct H as [H _]. rewrite H. vm_compute. reflexivity.
Defined.

(** C2 as stated fails when the marker occurs twice: the playbook is
    the middle piece, not everything behind the first marker. *)
Lemma C2_counterexample :
  let content := lit "A---SPLIT---B---SPLIT---C" in
  find MARKER content = Some 1
  ∧ strip (drop (1 + length MARKER) content) = lit "B---SPLIT---C"
  ∧ _parse_response ascii_lower yaml_load content (lit "Acme")
      (lit "https://acme.example/")
    = Some (lit "A", lit "B")
  ∧ lit "B" ≠ strip (drop (1 + length MARKER) content).
Proof. vm_compute. repeat split; discriminate. Qed.

(** An exception of [yaml.safe_load] that is no [yaml.YAMLError] ends
    the splitter: nothing is returned for this response. *)
Example parse_response_load_raises :
  _parse_response ascii_lower yaml_load
    (lit "date: 2001-13-45" ++ [NL] ++ MARKER ++ [NL] ++ lit "meta: x")
    (lit "Acme") (lit "https://acme.example/")
  = None.
Proof. vm_compute. reflexivity. Qed.

End SplitterFacts.

(** ** The fallback playbook *)
Section FallbackFacts.
Import PyStr Re Generator.

Lemma fence_line_from_line (l rest : pystr) (b : bool) :
  NL ∉ l →
  fence_line_from b (l ++ NL :: rest)
  = (b && startswith (lit "```") (l ++ NL :: rest)) || fence_line_from true rest.
Proof.
  revert b; induction l as [|c l IH]; intros b Hl.
  - cbn [app fence_line_from]. by rewrite N.eqb_refl.
  - apply not_elem_of_cons in Hl as [Hc Hl].
    change ((c :: l) ++ NL :: rest) with (c :: (l ++ NL :: rest)).
    cbn [fence_line_from]. rewrite IH by done.
    assert ((c =? NL)%N = false) as -> by (apply N.eqb_neq; congruence).
    done.
Qed.

Lemma startswith_backticks_line (l rest : pystr) :
  head l ≠ Some 96%N → startswith (lit "```") (l ++ NL :: rest) = false.
Proof.
  destruct l as [|c l]; [done |]. intros Hc.
  change (startswith (lit "```") ((c :: l) ++ NL :: rest))
    with ((96 =? c)%N && startswith (lit "``") (l ++ NL :: rest)).
  destruct (N.eqb_spec 96 c) as [<-|]; [by destruct Hc | done].
Qed.

(** Lines without a newline inside and without a backtick in front,
    each closed by a newline, make a text with no fence line. *)
Lemma no_fence_in_lines (ls : list pystr) :
  Forall (λ l, (NL ∉ l) ∧ head l ≠ Some 96%N) ls →
  has_fence_line (concat (ln <$> ls)) = false.
Proof.
  unfold has_fence_line. induction 1 as [|l ls [Hnl Hhd] _ IH]; [done |].
  cbn [fmap list_fmap concat]. unfold ln at 1. rewrite <- app_assoc.
  change ([NL] ++ ?r) with (NL :: r).
  rewrite fence_line_from_line by done.
  rewrite startswith_backticks_line by done. rewrite IH. done.
Qed.

Lemma concat_ln_snoc (ls : list pystr) (l : pystr) :
  concat (ln <$> (ls ++ [l])) = (concat (ln <$> ls) ++ l) ++ [NL].
Proof.
  rewrite fmap_app, concat_app. cbn [fmap list_fmap concat].
  unfold ln at 2. by rewrite app_nil_r, app_assoc.
Qed.

Lemma rstrip_newline (body : pystr) :
  (∀ c, last body = Some c → isspace c = false) →
  rstrip (body ++ [NL]) = body.
Proof.
  intros H. unfold rstrip. rewrite reverse_snoc.
  change (lstrip (NL :: reverse body)) with (lstrip (reverse body)).
  by apply rstrip_id.
Qed.

Ltac lit_fact := apply (bool_decide_unpack _); vm_compute; exact I.

Ltac no_newline :=
  lazymatch goal with
  | |- _ ∉ _ ++ _ => apply not_elem_of_app; split; no_newline
  | |- _ ∉ q _ => unfold q; no_newline
  | |- _ ∉ _ :: _ => apply not_elem_of_cons; split; [by vm_compute | no_newline]
  | |- _ ∉ [] => apply not_elem_of_nil
  | |- _ ∉ lit _ => lit_fact
  | |- _ => assumption
  end.

(** With no newline in the substituted values, cleaning the fallback
    playbook takes off its final newline and nothing else. *)
Lemma clean_fallback_playbook (lower : pystr → pystr)
    (company_name home_url : pystr) :
  NL ∉ company_name → NL ∉ home_url → NL ∉ company_id_of lower company_name →
  _generate_fallback_playbook lower company_name home_url
  = _clean_yaml (_generate_fallback_playbook lower company_name home_url) ++ [NL].
Proof.
  intros Hname Hurl Hid. unfold _generate_fallback_playbook. cbv zeta.
  set (cid := company_id_of lower company_name) in *.
  rewrite clean_yaml_no_fence.
  2:{ apply no_fence_in_lines. unfold fallback_lines.
      repeat (apply Forall_cons; split; [split; [no_newline | by vm_compute] |]).
      constructor. }
  unfold strip.
  rewrite (lstrip_id (concat _)) by (intros c [= <-]; reflexivity).
  match goal with
  | |- context [fallback_lines ?a ?b ?c] =>
      change (fallback_lines a b c)
        with (take 23 (fallback_lines a b c)
                ++ [lit "  demo_interrupted: "
                      ++ (DQ :: (lit "Got it " ++ [EM_DASH]
                            ++ lit " I'll pause here. What would you like to know?"))
                      ++ [DQ]])
  end.
  rewrite concat_ln_snoc. rewrite rstrip_newline; [done |].
  intros c. rewrite !app_assoc, last_snoc. intros [= <-]. reflexivity.
Qed.

(** C7, as the code has it.  When the response holds neither the
    marker nor the playbook preamble, the persona is the whole response,
    stripped and cleaned of fences, and the playbook is the fallback
    template after the same cleaning: with no newline in the company
    name, its normalized id and the home URL, that is the template
    without its final newline.  The two texts are returned unless
    [yaml.safe_load] raises something other than [yaml.YAMLError] on
    one of them: then nothing is returned. *)
Theorem C7_fallback_playbook (lower : pystr → pystr) (safe_load : pystr → SafeLoad)
    (content company_name home_url : pystr) :
  contains MARKER content = false →
  search re_playbook_start content = None →
  let template := _generate_fallback_playbook lower company_name home_url in
  let persona := _clean_yaml (strip content) in
  let playbook := _clean_yaml template in
  _parse_response lower safe_load content company_name home_url
    = (if escapes (safe_load persona) || escapes (safe_load playbook) then None
       else Some (persona, playbook))
  ∧ (NL ∉ company_name → NL ∉ home_url →
     NL ∉ company_id_of lower company_name →
     template = playbook ++ [NL]).
Proof.
  intros Hmarker Hpre template persona playbook. split.
  - apply parse_response_eq. unfold response_texts. by rewrite Hmarker, Hpre.
  - intros Hname Hurl Hid. by apply clean_fallback_playbook.
Qed.

Lemma C7_witness :
  _parse_response ascii_lower yaml_load (lit "name: Maya") (lit "Acme Corp")
    (lit "https://acme.example/")
  = Some (lit "name: Maya",
          _clean_yaml (_generate_fallback_playbook ascii_lower (lit "Acme Corp")
                         (lit "https://acme.example/"))).
Proof.
  pose proof (C7_fallback_playbook ascii_lower yaml_load (lit "name: Maya")
                (lit "Acme Corp") (lit "https://acme.example/")
                eq_refl eq_refl) as H.
  cbv zeta in H. destruct H as [H _]. rewrite H. vm_compute. reflexivity.
Defined.

(** C7 as stated fails: what comes back is not the template itself,
    the final newline of the template is gone. *)
Lemma C7_counterexample :
  let content := lit "name: Maya" in
  let company_name := lit "Acme Corp" in
  let home_url := lit "https://acme.example/" in
  let template := _generate_fallback_playbook ascii_lower company_name home_url in
  contains MARKER content = false
  ∧ search re_playbook_start content = None
  ∧ (∃ persona playbook,
       _parse_response ascii_lower yaml_load content company_name home_url
       = Some (persona, playbook)
       ∧ playbook ≠ template
       ∧ last playbook = Some DQ)
  ∧ last template = Some NL.
Proof.
  cbv zeta. split; [by vm_compute |]. split; [by vm_compute |].
  split; [|by vm_compute].
  eexists _, _. split; [vm_compute; reflexivity |].
  split; [by vm_compute | by vm_compute].
Qed.

End FallbackFacts.

(** ** The crawler *)
Section CrawlerFacts.
Import PyStr Scraper.
Context (w : World).

(** [_scrape_page], path by path. *)
Lemma scrape_page_eq (url : pystr) (s : Scraper) :
  _scrape_page w url s =
    if bool_decide (url ∈ visited_urls s) then (Some None, s)
    else if (max_pages s <=? Z.of_nat (size (visited_urls s)))%Z then (Some None, s)
    else
      match urlparse_netloc w url with
      | None => (None, s)
      | Some d =>
          if bool_decide (d ≠ base_domain s) then (Some None, s)
          else
            let s1 := set_visited ({[url]} ∪ visited_urls s) s in
            match load w url with
            | None => (Some None, s1)
            | Some pg =>
                (Some (Some (page_data_of url pg)),
                 set_pages (pages_data s ++ [page_data_of url pg]) s1)
            end
      end.
Proof.
  unfold _scrape_page, bind, get, ret, raise, modify.
  repeat case_match; reflexivity.
Qed.

Lemma scrape_page_frame (url : pystr) (s : Scraper) :
  let s' := snd (_scrape_page w url s) in
  start_url s' = start_url s ∧ max_pages s' = max_pages s
  ∧ base_domain s' = base_domain s.
Proof.
  rewrite scrape_page_eq. repeat case_match; done.
Qed.

Lemma scrape_page_visited_grows (url : pystr) (s : Scraper) :
  visited_urls s ⊆ visited_urls (snd (_scrape_page w url s)).
Proof.
  rewrite scrape_page_eq. repeat case_match; simpl; set_solver.
Qed.

Lemma scrape_page_within_budget (url : pystr) (s : Scraper) :
  within_budget s → within_budget (snd (_scrape_page w url s)).
Proof.
  unfold within_budget. intros Hb. rewrite scrape_page_eq.
  destruct (bool_decide (url ∈ visited_urls s)) eqn:Hv; [done |].
  apply bool_decide_eq_false in Hv.
  destruct (max_pages s <=? _)%Z eqn:Hm; [done |].
  apply Z.leb_gt in Hm.
  destruct (urlparse_netloc w url) as [d|]; [|done].
  destruct (bool_decide (d ≠ base_domain s)); [done |].
  assert (size ({[url]} ∪ visited_urls s) = S (size (visited_urls s))) as Hsz.
  { rewrite size_union by set_solver. by rewrite size_singleton. }
  cbv zeta. destruct (load w url); simpl; rewrite Hsz; lia.
Qed.

Lemma scrape_page_inv (url : pystr) (s : Scraper) :
  crawl_inv w s → crawl_inv w (snd (_scrape_page w url s)).
Proof.
  intros (Hl & Hp). rewrite scrape_page_eq.
  destruct (bool_decide (url ∈ visited_urls s)) eqn:Hv; [done |].
  apply bool_decide_eq_false in Hv.
  destruct (max_pages s <=? _)%Z; [done |].
  destruct (urlparse_netloc w url) as [d|] eqn:Hd; [|done].
  destruct (bool_decide (d ≠ base_domain s)) eqn:Hdom; [done |].
  apply bool_decide_eq_false in Hdom. apply dec_stable in Hdom. subst d.
  assert (size ({[url]} ∪ visited_urls s) = S (size (visited_urls s))) as Hsz.
  { rewrite size_union by set_solver. by rewrite size_singleton. }
  assert (Forall (λ p, scraped_shape p
                       ∧ urlparse_netloc w (Scraper.url p) = Some (base_domain s)
                       ∧ Scraper.url p ∈ {[url]} ∪ visited_urls s)
            (pages_data s)) as Hp'.
  { eapply Forall_impl; [exact Hp |]. intros p (? & ? & ?). set_solver. }
  cbv zeta. destruct (load w url) as [pg|]; unfold crawl_inv; simpl.
  - rewrite Hsz, length_app. simpl. split; [lia |].
    apply Forall_app. split; [done |]. apply Forall_singleton.
    split; [|split; [done | set_solver]].
    unfold scraped_shape; simpl. eauto.
  - rewrite Hsz. split; [lia | done].
Qed.

Lemma scrape_steps_trans (s1 s2 s3 : Scraper) :
  scrape_steps w s1 s2 → scrape_steps w s2 s3 → scrape_steps w s1 s3.
Proof.
  intros H12 H23. induction H23; [done |]. by constructor.
Qed.

Lemma scrape_steps_frame (s s' : Scraper) :
  scrape_steps w s s' →
  start_url s' = start_url s ∧ max_pages s' = max_pages s
  ∧ base_domain s' = base_domain s.
Proof.
  induction 1 as [|s' url _ (? & ? & ?)]; [done |].
  destruct (scrape_page_frame url s') as (? & ? & ?). split_and!; congruence.
Qed.

Lemma scrape_steps_visited_grows (s s' : Scraper) :
  scrape_steps w s s' → visited_urls s ⊆ visited_urls s'.
Proof.
  induction 1 as [|s' url _ IH]; [done |].
  etrans; [exact IH | apply scrape_page_visited_grows].
Qed.

Lemma scrape_steps_within_budget (s s' : Scraper) :
  scrape_steps w s s' → within_budget s → within_budget s'.
Proof.
  induction 1 as [|s' url _ IH]; [done |].
  intros Hs. by apply scrape_page_within_budget, IH.
Qed.

Lemma init_inv (start : pystr) (max : Z) (s0 : Scraper) :
  __init__ w start max = Some s0 →
  start_url s0 = start ∧ max_pages s0 = max
  ∧ urlparse_netloc w start = Some (base_domain s0)
  ∧ visited_urls s0 = ∅ ∧ pages_data s0 = [] ∧ crawl_inv w s0.
Proof.
  unfold __init__. destruct (urlparse_netloc w start) as [d|]; [|done].
  intros [= <-]. unfold crawl_inv. simpl. by split_and!.
Qed.

Lemma scrape_steps_inv (s s' : Scraper) :
  scrape_steps w s s' → crawl_inv w s → crawl_inv w s'.
Proof.
  induction 1 as [|s' url _ IH]; [done |].
  intros Hs. by apply scrape_page_inv, IH.
Qed.

End CrawlerFacts.

(** ** The phases of a crawl *)
Section PhaseFacts.
Import PyStr Scraper.
Context (w : World).

Lemma set_pages_id (s : Scraper) : set_pages (pages_data s ++ []) s = s.
Proof. destruct s. unfold set_pages. simpl. by rewrite app_nil_r. Qed.

Lemma set_pages_set_pages (ps qs : list PageRecord) (s : Scraper) :
  set_pages (pages_data (set_pages ps s) ++ qs) (set_pages ps s)
  = set_pages (ps ++ qs) s.
Proof. done. Qed.

(** The scraping loop only calls [_scrape_page]. *)
Lemma scrape_loop_steps (urls : list pystr) (s : Scraper) :
  scrape_steps w s (snd (for_each urls (scrape_unvisited w) s)).
Proof.
  revert s; induction urls as [|url urls IH]; intros s; [constructor |].
  cbn [for_each]. unfold bind at 1.
  assert (scrape_steps w s (snd (scrape_unvisited w url s))) as Hstep.
  { unfold scrape_unvisited, bind, get, ret.
    destruct (bool_decide (url ∉ visited_urls s)); [|constructor].
    pose proof (scrape_steps_call w s s url (scrape_steps_refl w s)) as H.
    by destruct (_scrape_page w url s) as [[r|] s']. }
  destruct (scrape_unvisited w url s) as [[[]|] s1]; [|done].
  eapply scrape_steps_trans; [exact Hstep | apply IH].
Qed.

(** One tab appends at most one record, of the tab shape, and touches
    nothing else. *)
Lemma click_tab_appends (tab : TabOutcome) (s : Scraper) :
  ∃ tabs, try_pass (click_tab tab) s = (Some tt, set_pages (pages_data s ++ tabs) s)
          ∧ length tabs ≤ 1 ∧ Forall tab_shape tabs.
Proof.
  assert (∃ tabs, (Some tt, s) = (Some tt, set_pages (pages_data s ++ tabs) s)
                  ∧ length tabs ≤ 1 ∧ Forall tab_shape tabs) as Hstay.
  { exists []. rewrite set_pages_id.
    split; [done | split; [simpl; lia | constructor]]. }
  unfold try_pass, click_tab, bind, get, ret, raise, modify.
  destruct (tab_inner_text tab) as [tab_text|]; [|exact Hstay].
  destruct (bool_decide (strip tab_text = [])); [exact Hstay |].
  destruct (tab_click_ok tab); cbn [negb]; [|exact Hstay].
  rewrite orb_true_r.
  destruct (tab_body_text tab) as [text|]; [|exact Hstay].
  destruct (tab_title tab) as [title|]; [|exact Hstay].
  destruct (existsb _ (pages_data s)); cbn [negb]; [exact Hstay |].
  eexists [_]. split; [reflexivity |]. split; [done |].
  apply Forall_singleton. unfold tab_shape, tab_data_of; simpl. eauto.
Qed.

Lemma tab_loop_appends (tabs : list TabOutcome) (s : Scraper) :
  ∃ recs, for_each tabs (λ tab, try_pass (click_tab tab)) s
          = (Some tt, set_pages (pages_data s ++ recs) s)
          ∧ length recs ≤ length tabs ∧ Forall tab_shape recs.
Proof.
  revert s; induction tabs as [|tab tabs IH]; intros s.
  - exists []. rewrite set_pages_id.
    split; [done | split; [simpl; lia | constructor]].
  - cbn [for_each]. unfold bind at 1.
    destruct (click_tab_appends tab s) as (r1 & -> & Hl1 & Hs1).
    destruct (IH (set_pages (pages_data s ++ r1) s)) as (r2 & -> & Hl2 & Hs2).
    exists (r1 ++ r2). rewrite set_pages_set_pages, <- app_assoc.
    split; [done |]. rewrite length_app. simpl. split; [lia |].
    by apply Forall_app.
Qed.

(** [_click_tabs] never raises, appends at most five records, all of
    the tab shape, and leaves [visited_urls] alone. *)
Lemma click_tabs_appends (s : Scraper) :
  ∃ recs, _click_tabs w s = (Some tt, set_pages (pages_data s ++ recs) s)
          ∧ length recs ≤ 5 ∧ Forall tab_shape recs.
Proof.
  unfold _click_tabs. unfold try_pass at 1.
  destruct (tab_elements w) as [tabs|].
  - destruct (tab_loop_appends (take 5 tabs) s) as (recs & -> & Hl & Hs).
    exists recs. split; [done |]. split; [|done].
    rewrite length_take in Hl. lia.
  - exists []. unfold raise. rewrite set_pages_id.
    split; [done | split; [simpl; lia | constructor]].
Qed.

(** A crawl is a run of [_scrape_page] calls followed by at most five
    appended tab records. *)
Lemma crawl_phases (s : Scraper) :
  ∃ s1 recs, scrape_steps w s s1
             ∧ crawl w s = set_pages (pages_data s1 ++ recs) s1
             ∧ length recs ≤ 5 ∧ Forall tab_shape recs.
Proof.
  assert (∀ s1, scrape_steps w s s1 →
            ∃ s1' recs, scrape_steps w s s1'
                        ∧ s1 = set_pages (pages_data s1' ++ recs) s1'
                        ∧ length recs ≤ 5 ∧ Forall tab_shape recs) as Hstop.
  { intros s1 H. exists s1, []. rewrite set_pages_id.
    split; [done | split; [done | split; [simpl; lia | constructor]]]. }
  unfold crawl, try_pass. unfold bind at 1.
  pose proof (scrape_steps_call w s s (start_url s) (scrape_steps_refl w s)) as H0.
  destruct (_scrape_page w (start_url s) s) as [[r|] s0]; simpl in H0;
    [|by apply Hstop].
  unfold _discover_pages. unfold bind at 1, get at 1.
  destruct (pages_data s0) as [|first_page rest] eqn:Hpages;
    [by apply Hstop |].
  destruct (nav_urls_of w (base_domain s0) first_page) as [nav_urls|];
    [|by apply Hstop].
  unfold bind at 1.
  pose proof (scrape_loop_steps (attempted w (max_pages s0) nav_urls) s0) as H1.
  destruct (for_each _ (scrape_unvisited w) s0) as [[[]|] s1]; simpl in H1.
  - destruct (click_tabs_appends s1) as (recs & -> & Hl & Hs).
    exists s1, recs. split; [by eapply scrape_steps_trans |]. done.
  - apply Hstop. by eapply scrape_steps_trans.
Qed.

End PhaseFacts.

(** ** The visit tracker *)
Section VisitTracker.
Import PyStr Scraper Fixtures.

(** C1.  With a page budget that is not negative, [visited_urls] never
    holds more than [max_pages] URLs: not after any sequence of calls of
    [_scrape_page] on the fresh scraper, during which the set only
    grows, and not when the crawl is over. *)
Theorem C1_visited_within_budget (w : World) (start : pystr) (max : Z)
    (self0 : Scraper) :
  (0 ≤ max)%Z →
  __init__ w start max = Some self0 →
  (∀ self, scrape_steps w self0 self →
     (Z.of_nat (size (visited_urls self)) ≤ max)%Z
     ∧ visited_urls self0 ⊆ visited_urls self
     ∧ ∀ url, visited_urls self ⊆ visited_urls (snd (_scrape_page w url self)))
  ∧ (Z.of_nat (size (visited_urls (crawl w self0))) ≤ max)%Z.
Proof.
  intros Hmax Hinit.
  destruct (init_inv w _ _ _ Hinit) as (_ & Hm & _ & Hv & _ & _).
  assert (within_budget self0) as Hb0.
  { unfold within_budget. rewrite Hv, Hm, size_empty. lia. }
  assert (∀ self, scrape_steps w self0 self →
            (Z.of_nat (size (visited_urls self)) ≤ max)%Z) as Hsteps.
  { intros self Hs.
    pose proof (scrape_steps_within_budget w _ _ Hs Hb0) as Hb.
    destruct (scrape_steps_frame w _ _ Hs) as (_ & Hmax' & _).
    unfold within_budget in Hb. congruence. }
  split.
  - intros self Hs. split; [by apply Hsteps |].
    split; [by apply (scrape_steps_visited_grows w) |].
    intros url. apply scrape_page_visited_grows.
  - destruct (crawl_phases w self0) as (s1 & recs & Hs1 & -> & _ & _).
    exact (Hsteps s1 Hs1).
Qed.

Lemma C1_witness :
  (Z.of_nat (size (visited_urls
     (crawl plain_world (mkScraper home 2 (lit "example.com") ∅ [])))) ≤ 2)%Z.
Proof.
  refine (proj2 (C1_visited_within_budget plain_world home 2
                   (mkScraper home 2 (lit "example.com") ∅ []) _ _)).
  - lia.
  - reflexivity.
Defined.

(** C4, as the code has it.  [_scrape_page] returns [None] and leaves
    [self] as it was exactly when the URL was already visited, or the
    budget is used up, or the network location of the URL is not equal
    to that of the start URL. *)
Theorem C4_visit_gate (w : World) (url : pystr) (self : Scraper) :
  _scrape_page w url self = (Some None, self) ↔ gate_closed w url self.
Proof.
  rewrite scrape_page_eq. unfold gate_closed. split.
  - destruct (bool_decide (url ∈ visited_urls self)) eqn:Hv.
    { apply bool_decide_eq_true in Hv. auto. }
    apply bool_decide_eq_false in Hv.
    destruct (max_pages self <=? _)%Z eqn:Hm.
    { apply Z.leb_le in Hm. auto. }
    destruct (urlparse_netloc w url) as [d|]; [|done].
    destruct (bool_decide (d ≠ base_domain self)) eqn:Hd.
    { apply bool_decide_eq_true in Hd. eauto. }
    cbv zeta. destruct (load w url); [done |].
    intros [= Heq]. exfalso. apply Hv.
    assert (url ∈ visited_urls (set_visited ({[url]} ∪ visited_urls self) self))
      as Hin by (simpl; set_solver).
    by rewrite Heq in Hin.
  - intros [Hv | [Hm | (d & Hd & Hne)]].
    + by rewrite bool_decide_eq_true_2.
    + apply Z.leb_le in Hm. rewrite Hm. by destruct (bool_decide _).
    + rewrite Hd. rewrite (bool_decide_eq_true_2 (d ≠ base_domain self)) by done.
      by repeat case_match.
Qed.

(** C4 as stated fails when "domain" is read as registered domain: on
    a fresh scraper for [https://example.com/] with budget 10, the URL
    [https://www.example.com/pricing] is turned away although it was
    not visited, the budget is not used up and both URLs have the
    registered domain [example.com]. *)
Lemma C4_counterexample :
  let self := mkScraper home 10 (lit "example.com") ∅ [] in
  __init__ plain_world home 10 = Some self
  ∧ _scrape_page plain_world www_pricing self = (Some None, self)
  ∧ (www_pricing ∉ visited_urls self)
  ∧ (Z.of_nat (size (visited_urls self)) < max_pages self)%Z
  ∧ registered_domain <$> urlparse_netloc plain_world www_pricing
    = registered_domain <$> urlparse_netloc plain_world home
  ∧ registered_domain <$> urlparse_netloc plain_world home
    = Some (lit "example.com").
Proof.
  cbv zeta. split; [reflexivity |]. split; [by vm_compute |].
  split; [apply not_elem_of_empty |]. split; [by vm_compute |].
  split; by vm_compute.
Qed.

End VisitTracker.

(** ** The crawl result *)
Section CrawlResultFacts.
Import PyStr Scraper Fixtures.

(** What a completed crawl leaves in [pages]: records that went
    through the gate of [_scrape_page], then at most five tab records. *)
Lemma scrape_pages (w : World) (start : pystr) (max : Z) (self0 : Scraper) :
  __init__ w start max = Some self0 →
  ∃ s1 recs,
    scrape_steps w self0 s1 ∧ crawl_inv w s1
    ∧ base_domain s1 = base_domain self0
    ∧ pages (scrape w self0) = pages_data s1 ++ recs
    ∧ length recs ≤ 5 ∧ Forall tab_shape recs.
Proof.
  intros Hinit.
  destruct (init_inv w _ _ _ Hinit) as (_ & _ & _ & _ & _ & Hinv).
  destruct (crawl_phases w self0) as (s1 & recs & Hs1 & Hc & Hl & Hs).
  exists s1, recs. split; [done |].
  split; [by eapply scrape_steps_inv |].
  split; [by apply (scrape_steps_frame w) |].
  unfold scrape. cbv zeta. rewrite Hc. done.
Qed.

(** Whether a tab record is appended depends on [pages_data] alone. *)
Lemma click_tab_ignores_tracker (tab : TabOutcome) (s s' : Scraper) :
  pages_data s' = pages_data s →
  pages_data (snd (try_pass (click_tab tab) s'))
  = pages_data (snd (try_pass (click_tab tab) s)).
Proof.
  intros E. unfold try_pass, click_tab, bind, get, ret, raise, modify.
  destruct (tab_inner_text tab) as [tab_text|]; [|done].
  destruct (bool_decide (strip tab_text = [])); [done |].
  destruct (tab_click_ok tab); cbn [negb]; [|done].
  rewrite !orb_true_r.
  destruct (tab_body_text tab) as [text|]; [|done].
  destruct (tab_title tab) as [title|]; [|done].
  rewrite E. destruct (existsb _ (pages_data s)); cbn [negb]; simpl; congruence.
Qed.

(** C3, as the code has it.  After a completed crawl every record that
    is not a tab record has a URL whose network location is that of
    the start URL. *)
Theorem C3_scraped_pages_same_domain (w : World) (start : pystr) (max : Z)
    (self0 : Scraper) (p : PageRecord) :
  __init__ w start max = Some self0 →
  p ∈ pages (scrape w self0) →
  is_tab p = None →
  urlparse_netloc w (url p) = urlparse_netloc w start.
Proof.
  intros Hinit Hp Htab.
  destruct (init_inv w _ _ _ Hinit) as (_ & _ & -> & _).
  destruct (scrape_pages w _ _ _ Hinit) as (s1 & recs & _ & (_ & Hinv) & Hb & Hpg & _ & Hs).
  rewrite Hpg in Hp. apply elem_of_app in Hp as [Hp | Hp].
  - rewrite Forall_forall in Hinv. destruct (Hinv p Hp) as (_ & -> & _).
    by rewrite Hb.
  - rewrite Forall_forall in Hs. destruct (Hs p Hp) as (_ & _ & Ht & _).
    congruence.
Qed.

Lemma C3_witness :
  urlparse_netloc plain_world (url (page_data_of home home_page))
  = urlparse_netloc plain_world home.
Proof.
  apply (C3_scraped_pages_same_domain plain_world home 2
           (mkScraper home 2 (lit "example.com") ∅ [])).
  - reflexivity.
  - apply (bool_decide_unpack _). vm_compute. exact I.
  - reflexivity.
Defined.

(** C3 as stated fails for tab records: a tab element that is a link
    to another site leaves the browser there, and the record appended
    for it carries that URL. *)
Lemma C3_counterexample :
  ∃ r p,
    scrape_website partner_tab_world home 10 = Some r
    ∧ p ∈ pages r
    ∧ is_tab p = Some true
    ∧ urlparse_netloc partner_tab_world (url p) = Some (lit "partner.example.org")
    ∧ urlparse_netloc partner_tab_world home = Some (lit "example.com")
    ∧ urlparse_netloc partner_tab_world (url p)
      ≠ urlparse_netloc partner_tab_world home.
Proof.
  eexists _, (tab_data_of partner (lit "Partner") (lit "Partners")
                (lit "Partner landing page")).
  split; [reflexivity |].
  split; [apply (bool_decide_unpack _); by vm_compute |].
  split; [reflexivity |]. split; [by vm_compute |].
  split; by vm_compute.
Qed.

(** C8, as the code has it.  Every record of a completed crawl has
    [url], [title] and [text] and comes in one of two shapes: a scraped
    page carries [clickables] and [nav_items] and neither [is_tab] nor
    [tab_name]; a tab record carries [is_tab] and [tab_name] and neither
    [clickables] nor [nav_items]. *)
Theorem C8_record_shapes (w : World) (start : pystr) (max : Z)
    (self0 : Scraper) (p : PageRecord) :
  __init__ w start max = Some self0 →
  p ∈ pages (scrape w self0) →
  scraped_shape p ∨ tab_shape p.
Proof.
  intros Hinit Hp.
  destruct (scrape_pages w _ _ _ Hinit) as (s1 & recs & _ & (_ & Hinv) & _ & Hpg & _ & Hs).
  rewrite Hpg in Hp. apply elem_of_app in Hp as [Hp | Hp].
  - rewrite Forall_forall in Hinv. left. by destruct (Hinv p Hp).
  - rewrite Forall_forall in Hs. right. by apply Hs.
Qed.

Lemma C8_witness :
  let p := tab_data_of home (lit "Home") (lit " Features ") (lit "Feature list") in
  scraped_shape p ∨ tab_shape p.
Proof.
  apply (C8_record_shapes plain_world home 2
           (mkScraper home 2 (lit "example.com") ∅ [])).
  - reflexivity.
  - apply (bool_decide_unpack _). vm_compute. exact I.
Defined.

(** C8 as stated fails for tab records: the record of a clicked tab
    has no [clickables] and no [nav_items]. *)
Lemma C8_counterexample :
  ∃ r p,
    scrape_website plain_world home 2 = Some r
    ∧ p ∈ pages r
    ∧ clickables p = None ∧ nav_items p = None.
Proof.
  eexists _, (tab_data_of home (lit "Home") (lit " Features ") (lit "Feature list")).
  split; [reflexivity |].
  split; [apply (bool_decide_unpack _); by vm_compute |].
  split; reflexivity.
Qed.

(** C10.  Tab records are appended whatever [visited_urls] and
    [max_pages] are; with a page budget that is not negative a completed
    crawl returns at most [max_pages + 5] records, of which at most
    [max_pages] are scraped pages and at most five are tab records; and
    the total can exceed [max_pages]. *)
Theorem C10_pages_bound (w : World) (start : pystr) (max : Z)
    (self0 : Scraper) :
  (0 ≤ max)%Z →
  __init__ w start max = Some self0 →
  (Z.of_nat (length (pages (scrape w self0))) ≤ max + 5)%Z
  ∧ (∃ scraped tabs,
       pages (scrape w self0) = scraped ++ tabs
       ∧ (Z.of_nat (length scraped) ≤ max)%Z ∧ length tabs ≤ 5
       ∧ Forall scraped_shape scraped ∧ Forall tab_shape tabs)
  ∧ (∀ tab self visited' max',
       pages_data (snd (try_pass (click_tab tab)
                          (mkScraper (start_url self) max' (base_domain self)
                             visited' (pages_data self))))
       = pages_data (snd (try_pass (click_tab tab) self)))
  ∧ (∃ r, scrape_website plain_world home 2 = Some r
          ∧ (2 < Z.of_nat (length (pages r)))%Z).
Proof.
  intros Hmax Hinit.
  destruct (init_inv w _ _ _ Hinit) as (_ & Hm & _ & Hv & _ & _).
  destruct (scrape_pages w _ _ _ Hinit)
    as (s1 & recs & Hs1 & (Hlen & Hinv) & _ & Hpg & Hl & Hs).
  assert (within_budget s1) as Hb.
  { apply (scrape_steps_within_budget w self0); [done |].
    unfold within_budget. rewrite Hv, Hm, size_empty. lia. }
  destruct (scrape_steps_frame w _ _ Hs1) as (_ & Hmax' & _).
  unfold within_budget in Hb. rewrite Hmax', Hm in Hb.
  split; [rewrite Hpg, length_app; lia |].
  split.
  { exists (pages_data s1), recs. split; [done |]. split; [lia |].
    split; [done |]. split; [|done].
    eapply Forall_impl; [exact Hinv |]. by intros p (? & _). }
  split.
  { intros tab self visited' max'.
    by apply click_tab_ignores_tracker. }
  eexists. split; [reflexivity |]. by vm_compute.
Qed.

Lemma C10_witness :
  (Z.of_nat (length (pages (scrape plain_world
                              (mkScraper home 2 (lit "example.com") ∅ []))))
   ≤ 2 + 5)%Z.
Proof.
  refine (proj1 (C10_pages_bound plain_world home 2
                   (mkScraper home 2 (lit "example.com") ∅ []) _ _)).
  - lia.
  - reflexivity.
Defined.

End CrawlResultFacts.

(** ** The Expand phase *)
Section ExpandPhase.
Import PyStr Scraper Fixtures.

Lemma slice_to_length {A} (n : Z) (l : list A) :
  (0 ≤ n)%Z → (Z.of_nat (length (slice_to n l)) ≤ n)%Z.
Proof.
  intros Hn. unfold slice_to.
  assert ((n <? 0)%Z = false) as -> by lia.
  rewrite length_take. lia.
Qed.

(** Every candidate passed the same-domain test. *)
Lemma add_candidates_same_domain (w : World) (base : pystr)
    (hrefs : list (option pystr)) (acc X : gset pystr) :
  add_candidates w base hrefs acc = Some X →
  (∀ v, v ∈ acc → urlparse_netloc w v = Some base) →
  ∀ v, v ∈ X → urlparse_netloc w v = Some base.
Proof.
  revert acc; induction hrefs as [|h hrefs IH]; intros acc; cbn [add_candidates].
  - by intros [= <-].
  - destruct (add_candidate w base h acc) as [acc'|] eqn:Hadd; [|done].
    cbn. intros HX Hacc. apply (IH acc' HX).
    unfold add_candidate in Hadd. destruct h as [[|c h]|]; simplify_eq; try done.
    destruct (urlparse_netloc w (c :: h)) as [d|] eqn:Hd; simplify_eq/=.
    case_bool_decide; [|done]. subst d.
    intros v [->%elem_of_singleton | Hv]%elem_of_union; auto.
Qed.

(** The scraping loop visits nothing outside its list. *)
Lemma scrape_loop_visited (w : World) (urls : list pystr) (s : Scraper) :
  visited_urls (snd (for_each urls (scrape_unvisited w) s))
  ⊆ visited_urls s ∪ list_to_set urls.
Proof.
  revert s; induction urls as [|url urls IH]; intros s; [set_solver |].
  cbn [for_each]. unfold bind at 1.
  assert (visited_urls (snd (scrape_unvisited w url s))
          ⊆ visited_urls s ∪ {[url]}) as Hstep.
  { unfold scrape_unvisited, bind, get, ret.
    destruct (bool_decide (url ∉ visited_urls s)); [|set_solver].
    rewrite scrape_page_eq.
    destruct (bool_decide (url ∈ visited_urls s)); [set_solver |].
    destruct (max_pages s <=? _)%Z; [set_solver |].
    destruct (urlparse_netloc w url) as [d|]; [|set_solver].
    destruct (bool_decide (d ≠ base_domain s)); [set_solver |].
    cbv zeta. destruct (load w url); cbn; set_solver. }
  destruct (scrape_unvisited w url s) as [[[]|] s1]; cbn [snd] in *.
  - specialize (IH s1). set_solver.
  - set_solver.
Qed.

(** A crawl whose first page loads, step by step: the first page, the
    loop over the attempted candidates, then the tab records. *)
Lemma crawl_expand (w : World) (start : pystr) (max : Z) (self0 : Scraper)
    (pg : Loaded) (X : gset pystr) :
  __init__ w start max = Some self0 →
  (0 < max)%Z →
  load w start = Some pg →
  nav_urls_of w (base_domain self0) (page_data_of start pg) = Some X →
  let s1 := set_pages [page_data_of start pg] (set_visited {[start]} self0) in
  let s2 := snd (for_each (attempted w max X) (scrape_unvisited w) s1) in
  ∃ recs, crawl w self0 = set_pages (pages_data s2 ++ recs) s2
          ∧ length recs ≤ 5 ∧ Forall tab_shape recs.
Proof.
  intros Hinit Hmax Hload HX s1 s2.
  unfold __init__ in Hinit.
  destruct (urlparse_netloc w start) as [d|] eqn:Hd; [|done].
  injection Hinit as <-. cbn [base_domain] in HX.
  unfold crawl, try_pass. unfold bind at 1.
  rewrite scrape_page_eq. cbn [visited_urls max_pages start_url base_domain].
  rewrite bool_decide_eq_false_2 by set_solver.
  rewrite size_empty.
  assert ((max <=? Z.of_nat 0)%Z = false) as -> by (apply Z.leb_gt; simpl; lia).
  rewrite Hd. rewrite (bool_decide_eq_false_2 (d ≠ d)) by (by intros []).
  cbv zeta. rewrite Hload. rewrite (right_id_L ∅ (∪)).
  change (set_pages _ (set_visited {[start]} _)) with s1.
  unfold _discover_pages. unfold bind at 1, get at 1.
  change (pages_data s1) with [page_data_of start pg].
  change (base_domain s1) with d. change (max_pages s1) with max.
  cbv beta iota. rewrite HX. unfold bind at 1. fold s2.
  destruct (for_each _ (scrape_unvisited w) s1) as [[[]|] s2'] eqn:Hloop;
    subst s2; cbn [snd].
  - destruct (click_tabs_appends w s2') as (recs & -> & Hl & Hs). by exists recs.
  - exists []. rewrite set_pages_id.
    split; [done | split; [simpl; lia | constructor]].
Qed.

Lemma filter_not_tab_tabs (recs : list PageRecord) :
  Forall tab_shape recs → filter (λ p, not_tab p = true) recs = [].
Proof.
  induction 1 as [|p recs (_ & _ & Ht & _) _ IH]; [done |].
  rewrite filter_cons_False; [done |]. unfold not_tab. by rewrite Ht.
Qed.

Lemma front_first_perm (u : pystr) (X : gset pystr) :
  front_first u X ≡ₚ elements X.
Proof.
  unfold front_first. case_bool_decide as Hu; [|done].
  rewrite <- elements_union_singleton by set_solver.
  f_equiv. intros v. destruct (decide (v = u)) as [->|]; set_solver.
Qed.

(** The candidate the loop takes when the budget is 2 and the first
    page is in: skipped when it is the start URL, scraped otherwise. *)
Lemma expand_one (w : World) (start u d : pystr) (pages0 : list PageRecord) :
  urlparse_netloc w u = Some d →
  let s1 := mkScraper start 2 d {[start]} pages0 in
  snd (for_each [u] (scrape_unvisited w) s1)
  = if bool_decide (u = start) then s1
    else match load w u with
         | Some pg_u =>
             mkScraper start 2 d ({[u]} ∪ {[start]}) (pages0 ++ [page_data_of u pg_u])
         | None => mkScraper start 2 d ({[u]} ∪ {[start]}) pages0
         end.
Proof.
  intros Hd s1. cbn [for_each]. unfold bind at 1, scrape_unvisited.
  unfold bind at 1, get at 1.
  change (visited_urls s1) with ({[start]} : gset pystr).
  destruct (decide (u = start)) as [->|Hne].
  - rewrite (bool_decide_eq_false_2 (start ∉ _)) by set_solver.
    by rewrite bool_decide_eq_true_2.
  - rewrite (bool_decide_eq_true_2 (u ∉ _)) by set_solver.
    rewrite (bool_decide_eq_false_2 (u = start)) by done.
    unfold bind at 1. rewrite scrape_page_eq.
    change (visited_urls s1) with ({[start]} : gset pystr).
    rewrite bool_decide_eq_false_2 by set_solver.
    rewrite size_singleton. change (max_pages s1 <=? Z.of_nat 1)%Z with false.
    rewrite Hd. change (base_domain s1) with d.
    rewrite (bool_decide_eq_false_2 (d ≠ d)) by (by intros []).
    cbv zeta. by destruct (load w u).
Qed.

(** C5, as the code has it.  With [max_pages = 2], a start page that
    loads and three distinct same-domain candidates, the loop takes one
    candidate, the first in the enumeration of the set: when that one
    is not the start URL and loads, exactly one page is scraped beyond
    the start page; when it is the start URL, none is; the other two
    candidates are never scraped.  Whatever the budget, at most
    [max_pages - 1] candidates are taken and nothing else is visited. *)
Theorem C5_expand_budget (w : World) (start : pystr) (self0 : Scraper)
    (pg : Loaded) (X : gset pystr) (u : pystr) (rest : list pystr) :
  (∀ Y, set_order w Y ≡ₚ elements Y) →
  __init__ w start 2 = Some self0 →
  load w start = Some pg →
  nav_urls_of w (base_domain self0) (page_data_of start pg) = Some X →
  size X = 3 →
  set_order w X = u :: rest →
  let final := crawl w self0 in
  attempted w 2 X = [u] ∧ length rest = 2
  ∧ visited_urls final ⊆ {[start; u]}
  ∧ (∀ v, v ∈ rest → v ≠ start → v ∉ visited_urls final)
  ∧ (u ≠ start → ∀ pg_u, load w u = Some pg_u →
       filter (λ p, not_tab p = true) (pages_data final)
       = [page_data_of start pg; page_data_of u pg_u])
  ∧ (u = start →
       filter (λ p, not_tab p = true) (pages_data final)
       = [page_data_of start pg])
  ∧ (∀ max Y, (1 ≤ max)%Z →
       (Z.of_nat (length (attempted w max Y)) ≤ max - 1)%Z)
  ∧ (∀ max self0' Y, (1 ≤ max)%Z →
       __init__ w start max = Some self0' →
       nav_urls_of w (base_domain self0') (page_data_of start pg) = Some Y →
       visited_urls (crawl w self0')
       ⊆ {[start]} ∪ list_to_set (attempted w max Y)).
Proof.
  intros Hperm Hinit Hload HX Hsize Horder final.
  assert (attempted w 2 X = [u]) as Hatt.
  { unfold attempted. rewrite Horder. reflexivity. }
  assert (length rest = 2) as Hrest.
  { pose proof (Permutation_length (Hperm X)) as Hl.
    rewrite Horder in Hl. unfold size, set_size in Hsize. simpl in *. lia. }
  assert (NoDup (u :: rest)) as Hnd.
  { rewrite <- Horder, (Hperm X). apply NoDup_elements. }
  assert (u ∈ X) as HuX.
  { apply elem_of_elements. rewrite <- (Hperm X), Horder. left. }
  destruct (crawl_expand w start 2 self0 pg X Hinit ltac:(lia) Hload HX)
    as (recs & Hfinal & _ & Hrecs).
  rewrite Hatt in Hfinal.
  pose proof (add_candidates_same_domain w _ _ _ _ HX
                ltac:(set_solver) u HuX) as Hdu.
  unfold __init__ in Hinit.
  destruct (urlparse_netloc w start) as [d|] eqn:Hd; [|done].
  injection Hinit as <-. cbn [base_domain] in *.
  change (set_pages [page_data_of start pg] (set_visited {[start]} _))
    with (mkScraper start 2 d {[start]} [page_data_of start pg]) in Hfinal.
  rewrite (expand_one w start u d _ Hdu) in Hfinal.
  assert (visited_urls final ⊆ {[start; u]}) as Hvis.
  { subst final. rewrite Hfinal.
    case_bool_decide; [|destruct (load w u)]; cbn; set_solver. }
  split; [done |]. split; [done |]. split; [done |].
  split.
  { intros v Hv Hvs Hin. apply Hvis in Hin.
    apply NoDup_cons in Hnd as [Hu _]. set_solver. }
  split.
  { intros Hne pg_u Hpg. subst final. rewrite Hfinal.
    rewrite bool_decide_eq_false_2 by done. rewrite Hpg. cbn [pages_data set_pages].
    rewrite filter_app, (filter_not_tab_tabs recs) by done. reflexivity. }
  split.
  { intros ->. subst final. rewrite Hfinal.
    rewrite bool_decide_eq_true_2 by done. cbn [pages_data set_pages].
    rewrite filter_app, (filter_not_tab_tabs recs) by done. reflexivity. }
  split.
  { intros max Y Hmax. unfold attempted. apply slice_to_length. lia. }
  intros max self0' Y Hmax Hinit' HY.
  destruct (crawl_expand w start max self0' pg Y Hinit' ltac:(lia) Hload HY)
    as (recs' & -> & _ & _).
  cbn [visited_urls set_pages].
  etrans; [apply scrape_loop_visited |]. cbn. set_solver.
Qed.

Lemma C5_witness :
  let self0 := mkScraper home 2 (lit "example.com") ∅ [] in
  attempted plain_world 2 {[about; docs; pricing]} = [about]
  ∧ filter (λ p, not_tab p = true) (pages_data (crawl plain_world self0))
    = [page_data_of home home_page;
       page_data_of about (simple_page "About" "About us")].
Proof.
  pose proof (C5_expand_budget plain_world home
                (mkScraper home 2 (lit "example.com") ∅ []) home_page
                {[about; docs; pricing]} about [docs; pricing]
                (λ Y, Permutation_refl (elements Y))) as H.
  do 5 (lapply H; [clear H; intros H | vm_compute; reflexivity]).
  cbv zeta in H. destruct H as (H1 & _ & _ & _ & H5 & _).
  split; [exact H1 |]. apply H5; [by vm_compute | reflexivity].
Defined.

(** C5 as stated fails when one of the three candidates is the start
    URL and the set yields it first: the navigation bar of the start
    page links to Home, About and Pricing, every one of them loads, the
    order is a genuine enumeration of the set, and with [max_pages = 2]
    the crawl returns the start page alone. *)
Lemma C5_counterexample :
  let self0 := mkScraper home 2 (lit "example.com") ∅ [] in
  let X : gset pystr := {[home; about; pricing]} in
  __init__ self_link_world home 2 = Some self0
  ∧ load self_link_world home = Some home_page_self_link
  ∧ nav_urls_of self_link_world (lit "example.com")
      (page_data_of home home_page_self_link) = Some X
  ∧ size X = 3
  ∧ Forall (λ v, urlparse_netloc self_link_world v = Some (lit "example.com")
                 ∧ is_Some (load self_link_world v))
      [home; about; pricing]
  ∧ set_order self_link_world X ≡ₚ elements X
  ∧ set_order self_link_world X = [home; about; pricing]
  ∧ pages (scrape self_link_world self0)
    = [page_data_of home home_page_self_link]
  ∧ visited_urls (crawl self_link_world self0) = {[home]}.
Proof.
  cbv zeta. split_and!; try reflexivity.
  - repeat (apply Forall_cons; split; [split; [reflexivity | by eexists] |]).
    constructor.
  - apply front_first_perm.
Qed.

End ExpandPhase.


(** ** More on the crawler: what the records are *)
Section RecordFacts.
Import PyStr Scraper CrawlShape Fixtures.
Context (w : World).

Lemma scrape_page_pages_prefix (url : pystr) (s : Scraper) :
  pages_data s `prefix_of` pages_data (snd (_scrape_page w url s)).
Proof.
  rewrite scrape_page_eq.
  destruct (bool_decide (url ∈ visited_urls s)); [done |].
  destruct (max_pages s <=? _)%Z; [done |].
  destruct (urlparse_netloc w url) as [d|]; [|done].
  destruct (bool_decide (d ≠ base_domain s)); [done |].
  cbv zeta. destruct (load w url); cbn; [by eexists | done].
Qed.

Lemma scrape_steps_pages_prefix (s s' : Scraper) :
  scrape_steps w s s' → pages_data s `prefix_of` pages_data s'.
Proof.
  induction 1 as [|s' url _ IH]; [done |].
  etrans; [exact IH | apply scrape_page_pages_prefix].
Qed.

Lemma scrape_page_scraped_inv (url : pystr) (s : Scraper) :
  scraped_inv w s → scraped_inv w (snd (_scrape_page w url s)).
Proof.
  intros (Hnd & Hp). rewrite scrape_page_eq.
  destruct (bool_decide (url ∈ visited_urls s)) eqn:Hv; [done |].
  apply bool_decide_eq_false in Hv.
  destruct (max_pages s <=? _)%Z; [done |].
  destruct (urlparse_netloc w url) as [d|]; [|done].
  destruct (bool_decide (d ≠ base_domain s)); [done |].
  assert (Forall (λ p, scraped_record w p
                       ∧ Scraper.url p ∈ {[url]} ∪ visited_urls s)
            (pages_data s)) as Hp'.
  { eapply Forall_impl; [exact Hp |]. intros p (? & ?). set_solver. }
  cbv zeta. destruct (load w url) as [pg|] eqn:Hload; unfold scraped_inv; cbn.
  - split.
    + rewrite fmap_app. apply NoDup_app. split; [done |].
      split; [|apply NoDup_singleton].
      intros u Hu [->|[]%elem_of_nil]%elem_of_cons.
      apply list_elem_of_fmap in Hu as (p & Hpu & Hin).
      rewrite Forall_forall in Hp. destruct (Hp p Hin) as (_ & Hvis).
      apply Hv. cbn in Hpu. by rewrite Hpu.
    + apply Forall_app. split; [done |]. apply Forall_singleton.
      split; [by exists pg | set_solver].
  - done.
Qed.

Lemma scrape_steps_scraped_inv (s s' : Scraper) :
  scrape_steps w s s' → scraped_inv w s → scraped_inv w s'.
Proof.
  induction 1 as [|s' url _ IH]; [done |].
  intros Hs. by apply scrape_page_scraped_inv, IH.
Qed.

(** With the budget used up, [_scrape_page] changes nothing any more. *)
Lemma scrape_page_budget_spent (url : pystr) (s : Scraper) :
  (max_pages s ≤ Z.of_nat (size (visited_urls s)))%Z →
  snd (_scrape_page w url s) = s.
Proof.
  intros Hm. rewrite scrape_page_eq.
  destruct (bool_decide (url ∈ visited_urls s)); [done |].
  apply Z.leb_le in Hm. by rewrite Hm.
Qed.

Lemma scrape_steps_budget_spent (s s' : Scraper) :
  (max_pages s ≤ Z.of_nat (size (visited_urls s)))%Z →
  scrape_steps w s s' → s' = s.
Proof.
  intros Hm. induction 1 as [|s' url _ IH]; [done |].
  rewrite IH. by apply scrape_page_budget_spent.
Qed.

End RecordFacts.

(** ** More on the phases of a crawl *)
Section CrawlCases.
Import PyStr Scraper CrawlShape Fixtures.
Context (w : World).

Lemma existsb_false_Forall {A} (f : A → bool) (l : list A) :
  existsb f l = false → Forall (λ x, f x = false) l.
Proof.
  induction l as [|x l IH]; [constructor |]. cbn.
  intros [Hx Hl]%orb_false_iff. constructor; auto.
Qed.

Lemma click_tab_appends_strong (tab : TabOutcome) (s : Scraper) :
  ∃ recs, try_pass (click_tab tab) s
            = (Some tt, set_pages (pages_data s ++ recs) s)
          ∧ length recs ≤ 1
          ∧ Forall (tab_record_after (pages_data s)) recs.
Proof.
  assert (∃ recs, (Some tt, s) = (Some tt, set_pages (pages_data s ++ recs) s)
                  ∧ length recs ≤ 1
                  ∧ Forall (tab_record_after (pages_data s)) recs) as Hstay.
  { exists []. rewrite set_pages_id.
    split; [done | split; [simpl; lia | constructor]]. }
  unfold try_pass, click_tab, bind, get, ret, raise, modify.
  destruct (tab_inner_text tab) as [tab_text|]; [|exact Hstay].
  destruct (bool_decide (strip tab_text = [])) eqn:Hblank; [exact Hstay |].
  apply bool_decide_eq_false in Hblank.
  destruct (tab_click_ok tab); cbn [negb]; [|exact Hstay].
  rewrite orb_true_r.
  destruct (tab_body_text tab) as [text|]; [|exact Hstay].
  destruct (tab_title tab) as [title|]; [|exact Hstay].
  destruct (existsb _ (pages_data s)) eqn:Hex; cbn [negb]; [exact Hstay |].
  eexists [_]. split; [reflexivity |]. split; [done |].
  apply Forall_singleton. exists (tab_url tab), title, tab_text, text.
  split; [done |]. split; [done |].
  apply existsb_false_Forall in Hex.
  eapply Forall_impl; [exact Hex |]. intros q Hq. cbn in Hq.
  by apply bool_decide_eq_false in Hq.
Qed.

Lemma tab_loop_appends_strong (tabs : list TabOutcome) (s : Scraper) :
  ∃ recs, for_each tabs (λ tab, try_pass (click_tab tab)) s
            = (Some tt, set_pages (pages_data s ++ recs) s)
          ∧ length recs ≤ length tabs
          ∧ tab_records_after (pages_data s) recs.
Proof.
  revert s; induction tabs as [|tab tabs IH]; intros s.
  - exists []. rewrite set_pages_id.
    split; [done |]. split; [simpl; lia |].
    intros pre p post Heq. by destruct pre.
  - cbn [for_each]. unfold bind at 1.
    destruct (click_tab_appends_strong tab s) as (r1 & -> & Hl1 & Hs1).
    destruct (IH (set_pages (pages_data s ++ r1) s)) as (r2 & -> & Hl2 & Hs2).
    exists (r1 ++ r2). rewrite set_pages_set_pages, <- app_assoc.
    split; [done |]. rewrite length_app. simpl. split; [lia |].
    cbn [pages_data set_pages] in Hs2.
    destruct r1 as [|x [|? ?]]; [| |simpl in Hl1; lia].
    + rewrite app_nil_r in Hs2. exact Hs2.
    + rewrite Forall_singleton in Hs1.
      intros [|y pre] p post Heq; simplify_eq/=.
      * by rewrite app_nil_r.
      * specialize (Hs2 pre p post eq_refl).
        by rewrite <- app_assoc in Hs2.
Qed.

Lemma click_tabs_appends_strong (s : Scraper) :
  ∃ recs, _click_tabs w s = (Some tt, set_pages (pages_data s ++ recs) s)
          ∧ length recs ≤ 5 ∧ tab_records_after (pages_data s) recs.
Proof.
  unfold _click_tabs. unfold try_pass at 1.
  destruct (tab_elements w) as [tabs|].
  - destruct (tab_loop_appends_strong (take 5 tabs) s) as (recs & -> & Hl & Hs).
    exists recs. split; [done |]. split; [|done].
    rewrite length_take in Hl. lia.
  - exists []. unfold raise. rewrite set_pages_id.
    split; [done |]. split; [simpl; lia |].
    intros pre p post Heq. by destruct pre.
Qed.

(** The crawl of a fresh scraper, path by path. *)
Lemma crawl_eq (start : pystr) (max : Z) (self0 : Scraper) :
  __init__ w start max = Some self0 →
  crawl w self0 =
    if (max <=? 0)%Z then self0
    else
      match load w start with
      | None => set_visited {[start]} self0
      | Some pg =>
          let s1 := set_pages [page_data_of start pg]
                      (set_visited {[start]} self0) in
          match nav_urls_of w (base_domain self0) (page_data_of start pg) with
          | None => s1
          | Some X =>
              match for_each (attempted w max X) (scrape_unvisited w) s1 with
              | (Some _, s2) => snd (_click_tabs w s2)
              | (None, s2) => s2
              end
          end
      end.
Proof.
  intros Hinit. unfold __init__ in Hinit.
  destruct (urlparse_netloc w start) as [d|] eqn:Hd; [|done].
  injection Hinit as <-. cbn [base_domain].
  unfold crawl, try_pass. unfold bind at 1.
  rewrite scrape_page_eq. cbn [visited_urls max_pages start_url base_domain].
  rewrite bool_decide_eq_false_2 by set_solver. rewrite size_empty.
  change (Z.of_nat 0) with 0%Z.
  destruct (max <=? 0)%Z; [done |].
  rewrite Hd. rewrite (bool_decide_eq_false_2 (d ≠ d)) by (by intros []).
  cbv zeta. rewrite (right_id_L ∅ (∪)).
  destruct (load w start) as [pg|]; [|done].
  set (s1 := set_pages _ (set_visited {[start]} _)).
  unfold _discover_pages. unfold bind at 1, get at 1.
  change (pages_data s1) with [page_data_of start pg].
  change (base_domain s1) with d. change (max_pages s1) with max.
  cbv beta iota.
  destruct (nav_urls_of w d (page_data_of start pg)) as [X|]; [|done].
  unfold bind at 1.
  destruct (for_each _ (scrape_unvisited w) s1) as [[[]|] s2]; [|done].
  destruct (click_tabs_appends_strong s2) as (recs & -> & _). done.
Qed.

(** The three ways a crawl ends: nothing scraped; the start page alone
    because [urlparse] raised on one of its hrefs; or the start page, the
    loop over the attempted candidates and the tab sweep. *)
Lemma crawl_cases (start : pystr) (max : Z) (self0 : Scraper) :
  __init__ w start max = Some self0 →
  (pages_data (crawl w self0) = []
   ∧ ((max ≤ 0)%Z ∧ visited_urls (crawl w self0) = ∅
      ∨ (0 < max)%Z ∧ load w start = None
        ∧ visited_urls (crawl w self0) = {[start]}))
  ∨ (∃ pg, load w start = Some pg ∧ (0 < max)%Z
           ∧ nav_urls_of w (base_domain self0) (page_data_of start pg) = None
           ∧ crawl w self0
             = set_pages [page_data_of start pg] (set_visited {[start]} self0))
  ∨ (∃ pg X recs,
       load w start = Some pg ∧ (0 < max)%Z
       ∧ nav_urls_of w (base_domain self0) (page_data_of start pg) = Some X
       ∧ let s1 := set_pages [page_data_of start pg]
                     (set_visited {[start]} self0) in
         let s2 := snd (for_each (attempted w max X) (scrape_unvisited w) s1) in
         crawl w self0 = set_pages (pages_data s2 ++ recs) s2
         ∧ length recs ≤ 5 ∧ tab_records_after (pages_data s2) recs).
Proof.
  intros Hinit. rewrite (crawl_eq _ _ _ Hinit).
  unfold __init__ in Hinit.
  destruct (urlparse_netloc w start) as [d|] eqn:Hd; [|done].
  injection Hinit as <-. cbn [base_domain].
  destruct (max <=? 0)%Z eqn:Hmax.
  { apply Z.leb_le in Hmax. left. cbn. split; [done |]. left. done. }
  apply Z.leb_gt in Hmax.
  destruct (load w start) as [pg|] eqn:Hload.
  2:{ left. cbn. split; [done |]. right. done. }
  right. cbv zeta.
  destruct (nav_urls_of w d (page_data_of start pg)) as [X|] eqn:HX.
  2:{ left. by exists pg. }
  right. exists pg, X.
  destruct (for_each _ (scrape_unvisited w) _) as [[[]|] s2] eqn:Hloop; cbn [snd].
  - destruct (click_tabs_appends_strong s2) as (recs & -> & Hl & Hs).
    by exists recs.
  - exists []. rewrite set_pages_id.
    split; [done |]. split; [done |]. split; [done |].
    split; [done |]. split; [simpl; lia |].
    intros pre p post Heq. by destruct pre.
Qed.

End CrawlCases.

(** ** What a completed crawl returns *)
Section CrawlResultMore.
Import PyStr Scraper CrawlShape Fixtures.

Lemma first_page_scraped_inv (w : World) (start : pystr) (pg : Loaded)
    (self0 : Scraper) :
  load w start = Some pg →
  scraped_inv w (set_pages [page_data_of start pg] (set_visited {[start]} self0)).
Proof.
  intros Hload. split; cbn.
  - apply NoDup_singleton.
  - apply Forall_singleton. split; [by exists pg | set_solver].
Qed.

(** The pages of a completed crawl: scraped records with pairwise
    distinct URLs, the start page in front, then the tab records. *)
Lemma crawl_result (w : World) (start : pystr) (max : Z) (self0 : Scraper) :
  __init__ w start max = Some self0 →
  ∃ scraped recs,
    pages_data (crawl w self0) = scraped ++ recs
    ∧ NoDup (url <$> scraped)
    ∧ Forall (λ p, scraped_record w p ∧ url p ∈ visited_urls (crawl w self0))
        scraped
    ∧ length recs ≤ 5
    ∧ tab_records_after scraped recs
    ∧ (scraped = [] → recs = [])
    ∧ (∀ p, head scraped = Some p → url p = start).
Proof.
  intros Hinit.
  assert (tab_records_after [] []) as Hnil0
    by (intros pre p post Heq; by destruct pre).
  destruct (crawl_cases w _ _ _ Hinit)
    as [(Hp & _) | [(pg & Hload & _ & _ & Hc) | (pg & X & recs & Hload & _ & _ & Hc)]].
  - exists [], []. rewrite Hp. split; [done |]. split; [constructor |].
    split; [constructor |]. split; [simpl; lia |]. done.
  - exists [page_data_of start pg], []. rewrite Hc.
    destruct (first_page_scraped_inv w start pg self0 Hload) as (Hnd & Hf).
    split; [done |]. split; [done |]. split; [done |]. split; [simpl; lia |].
    split; [intros pre p post Heq; by destruct pre |].
    split; [done |]. by intros p [= <-].
  - cbv zeta in Hc. destruct Hc as (Hc & Hl & Hs).
    set (s1 := set_pages [page_data_of start pg] (set_visited {[start]} self0)) in *.
    set (s2 := snd (for_each (attempted w max X) (scrape_unvisited w) s1)) in *.
    pose proof (scrape_loop_steps w (attempted w max X) s1) as Hsteps.
    fold s2 in Hsteps.
    destruct (scrape_steps_scraped_inv w _ _ Hsteps
                (first_page_scraped_inv w start pg self0 Hload)) as (Hnd & Hf).
    pose proof (scrape_steps_pages_prefix w _ _ Hsteps) as [rest Hrest].
    exists (pages_data s2), recs. rewrite Hc. cbn [pages_data visited_urls set_pages].
    split; [done |]. split; [done |]. split; [done |]. split; [done |].
    split; [done |]. rewrite Hrest. split; [done |]. by intros p [= <-].
Qed.

(** X1.  A completed crawl that returns anything returns the start page
    first: the first record is the record of [_scrape_page] for the start
    URL, holding what the browser read there. *)
Theorem X1_first_page_is_start (w : World) (start : pystr) (max : Z)
    (self0 : Scraper) (p : PageRecord) (rest : list PageRecord) :
  __init__ w start max = Some self0 →
  pages (scrape w self0) = p :: rest →
  ∃ pg, load w start = Some pg ∧ p = page_data_of start pg.
Proof.
  intros Hinit Hpages.
  destruct (crawl_result w _ _ _ Hinit)
    as (scraped & recs & Heq & _ & Hf & _ & _ & Hnil & Hhd).
  unfold scrape in Hpages. cbn in Hpages. rewrite Heq in Hpages.
  destruct scraped as [|q scraped].
  - rewrite (Hnil eq_refl) in Hpages. done.
  - injection Hpages as -> _.
    apply Forall_cons in Hf as (((pg & Hload & Hq) & _) & _).
    rewrite (Hhd p eq_refl) in Hload, Hq. by exists pg.
Qed.

Lemma X1_witness :
  ∃ pg, load plain_world home = Some pg
        ∧ page_data_of home home_page = page_data_of home pg.
Proof.
  refine (X1_first_page_is_start plain_world home 1
            (mkScraper home 1 (lit "example.com") ∅ [])
            (page_data_of home home_page) _ _ _).
  - reflexivity.
  - vm_compute. reflexivity.
Defined.

(** X2.  When the start page cannot be loaded the crawl returns no page
    at all: no candidate is tried and the tab sweep does not run. *)
Theorem X2_start_page_fails (w : World) (start : pystr) (max : Z)
    (self0 : Scraper) :
  __init__ w start max = Some self0 →
  load w start = None →
  pages (scrape w self0) = [] ∧ visited_urls (crawl w self0) ⊆ {[start]}.
Proof.
  intros Hinit Hload.
  destruct (crawl_cases w _ _ _ Hinit)
    as [(Hp & Hv) | [(pg & Hl & _) | (pg & X & recs & Hl & _)]]; [|congruence..].
  split; [done |]. destruct Hv as [(_ & ->) | (_ & _ & ->)]; set_solver.
Qed.

Lemma X2_witness :
  pages (scrape plain_world
           (mkScraper (lit "https://example.com/missing") 5 (lit "example.com") ∅ []))
  = [].
Proof.
  refine (proj1 (X2_start_page_fails plain_world (lit "https://example.com/missing") 5
                   (mkScraper (lit "https://example.com/missing") 5
                      (lit "example.com") ∅ []) _ _)).
  - reflexivity.
  - reflexivity.
Defined.

(** X3.  With a page budget of zero or less nothing is visited and
    nothing is returned, whatever the site. *)
Theorem X3_no_budget_no_pages (w : World) (start : pystr) (max : Z)
    (self0 : Scraper) :
  __init__ w start max = Some self0 →
  (max ≤ 0)%Z →
  pages (scrape w self0) = [] ∧ visited_urls (crawl w self0) = ∅.
Proof.
  intros Hinit Hmax.
  destruct (crawl_cases w _ _ _ Hinit)
    as [(Hp & Hv) | [(pg & _ & ? & _) | (pg & X & recs & _ & ? & _)]]; [|lia..].
  split; [done |]. destruct Hv as [(_ & ->) | (? & _)]; [done | lia].
Qed.

Lemma X3_witness :
  pages (scrape plain_world (mkScraper home 0 (lit "example.com") ∅ [])) = [].
Proof.
  refine (proj1 (X3_no_budget_no_pages plain_world home 0
                   (mkScraper home 0 (lit "example.com") ∅ []) _ _)).
  - reflexivity.
  - lia.
Defined.

End CrawlResultMore.

(** ** More on [strip] *)
Section StripFacts.
Import PyStr.

Lemma lstrip_suffix (s : pystr) : lstrip s `suffix_of` s.
Proof.
  induction s as [|c s IH]; [done |]. cbn.
  destruct (isspace c); [by apply suffix_cons_r | done].
Qed.

Lemma lstrip_head (s : pystr) (c : N) :
  head (lstrip s) = Some c → isspace c = false.
Proof.
  induction s as [|x s IH]; [done |]. cbn.
  destruct (isspace x) eqn:Hx; [done |]. by intros [= <-].
Qed.

Lemma rstrip_prefix (s : pystr) : rstrip s `prefix_of` s.
Proof.
  unfold rstrip. destruct (lstrip_suffix (reverse s)) as [k Hk].
  exists (reverse k). apply (inj reverse).
  by rewrite reverse_app, !reverse_involutive.
Qed.

Lemma rstrip_last (s : pystr) (c : N) :
  last (rstrip s) = Some c → isspace c = false.
Proof.
  unfold rstrip. rewrite last_reverse. apply lstrip_head.
Qed.

Lemma rstrip_head (s : pystr) (c : N) :
  head (rstrip s) = Some c → head s = Some c.
Proof.
  destruct (rstrip_prefix s) as [k Hk]. intros Hc. rewrite Hk.
  by destruct (rstrip s).
Qed.

(** What [strip] returns neither starts nor ends with whitespace. *)
Lemma strip_edges (s : pystr) :
  (∀ c, head (strip s) = Some c → isspace c = false)
  ∧ (∀ c, last (strip s) = Some c → isspace c = false).
Proof.
  unfold strip. split; intros c Hc.
  - apply rstrip_head in Hc. by apply lstrip_head in Hc.
  - by apply rstrip_last in Hc.
Qed.

Lemma strip_strip (s : pystr) : strip (strip s) = strip s.
Proof. destruct (strip_edges s). by apply strip_id. Qed.

End StripFacts.

(** ** The tab sweep *)
Section TabSweep.
Import PyStr Scraper CrawlShape Fixtures.

Lemma for_each_app {A} (l1 l2 : list A) (body : A → M unit) (s : Scraper) :
  for_each (l1 ++ l2) body s
  = match for_each l1 body s with
    | (Some _, s') => for_each l2 body s'
    | (None, s') => (None, s')
    end.
Proof.
  revert s; induction l1 as [|x l1 IH]; intros s; [done |].
  cbn [app for_each]. unfold bind.
  destruct (body x s) as [[[]|] s1]; [apply IH | done].
Qed.

(** The round of a tab whose label is not blank and whose click and
    reads succeed. *)
Lemma click_tab_clicked (tab : TabOutcome) (s : Scraper)
    (tab_text text title : pystr) :
  tab_inner_text tab = Some tab_text →
  strip tab_text ≠ [] →
  tab_click_ok tab = true →
  tab_body_text tab = Some text →
  tab_title tab = Some title →
  try_pass (click_tab tab) s
  = (Some tt,
     if existsb (λ p, bool_decide (take 500 (Scraper.text p) = take 500 text))
          (pages_data s)
     then s
     else set_pages (pages_data s ++ [tab_data_of (tab_url tab) title tab_text text]) s).
Proof.
  intros Hlabel Hblank Hclick Hbody Htitle.
  unfold try_pass, click_tab, bind, get, ret, raise, modify.
  rewrite Hlabel, (bool_decide_eq_false_2 _ Hblank), Hclick. cbn [negb].
  rewrite orb_true_r, Hbody, Htitle.
  by destruct (existsb _ (pages_data s)).
Qed.

Lemma existsb_same_start (text : pystr) (l : list PageRecord) :
  existsb (λ p, bool_decide (take 500 (Scraper.text p) = take 500 text)) l = true
  ↔ ∃ p, p ∈ l ∧ take 500 (Scraper.text p) = take 500 text.
Proof.
  rewrite existsb_exists. split; intros (p & Hp & Heq); exists p.
  - split; [by apply list_elem_of_In | by apply bool_decide_eq_true in Heq].
  - split; [by apply list_elem_of_In | by apply bool_decide_eq_true].
Qed.

(** Any round: at most one record, built from this tab, whose text
    opens unlike every record that was there. *)
Lemma click_tab_round (tab : TabOutcome) (s : Scraper) :
  ∃ recs, try_pass (click_tab tab) s
          = (Some tt, set_pages (pages_data s ++ recs) s)
          ∧ length recs ≤ 1
          ∧ Forall (tab_record_of tab) recs
          ∧ Forall (λ q, ∀ p, p ∈ pages_data s →
                      take 500 (Scraper.text p) ≠ take 500 (Scraper.text q)) recs.
Proof.
  assert (∃ recs, (Some tt, s) = (Some tt, set_pages (pages_data s ++ recs) s)
                  ∧ length recs ≤ 1 ∧ Forall (tab_record_of tab) recs
                  ∧ Forall (λ q, ∀ p, p ∈ pages_data s →
                      take 500 (Scraper.text p) ≠ take 500 (Scraper.text q)) recs)
    as Hstay.
  { exists []. rewrite set_pages_id.
    split; [done |]. split; [simpl; lia |]. split; constructor. }
  destruct (tab_inner_text tab) as [tab_text|] eqn:Hlabel.
  2:{ unfold try_pass, click_tab, raise. rewrite Hlabel. exact Hstay. }
  destruct (decide (strip tab_text = [])) as [Hblank|Hblank].
  { unfold try_pass, click_tab, ret. rewrite Hlabel.
    rewrite (bool_decide_eq_true_2 _ Hblank). exact Hstay. }
  destruct (tab_click_ok tab) eqn:Hclick.
  2:{ unfold try_pass, click_tab, raise. rewrite Hlabel.
      rewrite (bool_decide_eq_false_2 _ Hblank), Hclick. exact Hstay. }
  destruct (tab_body_text tab) as [text|] eqn:Hbody.
  2:{ unfold try_pass, click_tab, bind, get, raise. rewrite Hlabel.
      rewrite (bool_decide_eq_false_2 _ Hblank), Hclick. cbn [negb].
      rewrite orb_true_r, Hbody. exact Hstay. }
  destruct (tab_title tab) as [title|] eqn:Htitle.
  2:{ unfold try_pass, click_tab, bind, get, raise. rewrite Hlabel.
      rewrite (bool_decide_eq_false_2 _ Hblank), Hclick. cbn [negb].
      rewrite orb_true_r, Hbody, Htitle. exact Hstay. }
  rewrite (click_tab_clicked tab s tab_text text title) by done.
  destruct (existsb _ (pages_data s)) eqn:Hex; [exact Hstay |].
  eexists [_]. split; [reflexivity |]. split; [done |]. split.
  - apply Forall_singleton. by exists tab_text, text, title.
  - apply Forall_singleton. intros p Hp Heq.
    cbn [Scraper.text tab_data_of] in Heq. rewrite take_take in Heq.
    assert (existsb (λ p, bool_decide (take 500 (Scraper.text p) = take 500 text))
              (pages_data s) = true) as Hex'
      by (apply existsb_same_start; by exists p).
    congruence.
Qed.

(** The loop over some tabs: records built from these tabs, in order,
    each one opening unlike everything in front of it. *)
Lemma tab_loop_round (tabs : list TabOutcome) (s : Scraper) :
  ∃ recs, for_each tabs (λ tab, try_pass (click_tab tab)) s
          = (Some tt, set_pages (pages_data s ++ recs) s)
          ∧ length recs ≤ length tabs
          ∧ Forall (λ q, ∃ tab, tab ∈ tabs ∧ tab_record_of tab q) recs
          ∧ Forall (λ q, ∀ p, p ∈ pages_data s →
                      take 500 (Scraper.text p) ≠ take 500 (Scraper.text q)) recs.
Proof.
  revert s; induction tabs as [|tab tabs IH]; intros s.
  - exists []. rewrite set_pages_id.
    split; [done |]. split; [simpl; lia |]. split; constructor.
  - cbn [for_each]. unfold bind at 1.
    destruct (click_tab_round tab s) as (r1 & -> & Hl1 & Ho1 & Hf1).
    destruct (IH (set_pages (pages_data s ++ r1) s)) as (r2 & -> & Hl2 & Ho2 & Hf2).
    exists (r1 ++ r2). rewrite set_pages_set_pages, <- app_assoc.
    split; [done |]. rewrite length_app. cbn [length]. split; [lia |].
    cbn [pages_data set_pages] in Hf2. split.
    + apply Forall_app. split.
      * eapply Forall_impl; [exact Ho1 |]. intros q Hq. exists tab.
        split; [left | done].
      * eapply Forall_impl; [exact Ho2 |]. intros q (tab' & Hin & Hq).
        exists tab'. split; [by right | done].
    + apply Forall_app. split; [done |].
      eapply Forall_impl; [exact Hf2 |]. intros q Hq p' Hp'.
      apply Hq. apply elem_of_app. by left.
Qed.

(** The sweep around one clicked tab: the tabs in front of it, its own
    round against everything seen so far, the tabs behind it. *)
Lemma sweep_around (w : World) (tabs before after : list TabOutcome)
    (tab : TabOutcome) (tab_text text title : pystr) (s : Scraper) :
  tab_elements w = Some tabs →
  take 5 tabs = before ++ tab :: after →
  tab_inner_text tab = Some tab_text →
  strip tab_text ≠ [] →
  tab_click_ok tab = true →
  tab_body_text tab = Some text →
  tab_title tab = Some title →
  ∃ recs_before recs_after,
    let seen := pages_data s ++ recs_before in
    length recs_before ≤ length before
    ∧ Forall (λ q, ∃ tab', tab' ∈ before ∧ tab_record_of tab' q) recs_before
    ∧ length recs_after ≤ length after
    ∧ ((∃ p, p ∈ seen ∧ take 500 (Scraper.text p) = take 500 text) →
       pages_data (snd (_click_tabs w s)) = seen ++ recs_after
       ∧ Forall (λ q, take 500 (Scraper.text q) ≠ take 500 text) recs_after)
    ∧ ((∀ p, p ∈ seen → take 500 (Scraper.text p) ≠ take 500 text) →
       pages_data (snd (_click_tabs w s))
       = seen ++ tab_data_of (tab_url tab) title tab_text text :: recs_after).
Proof.
  intros Htabs Hsplit Hlabel Hblank Hclick Hbody Htitle.
  remember (pages_data (snd (_click_tabs w s))) as result eqn:Hres.
  unfold _click_tabs in Hres. rewrite Htabs, Hsplit in Hres.
  unfold try_pass at 1 in Hres. rewrite for_each_app in Hres.
  destruct (tab_loop_round before s) as (r1 & E1 & Hl1 & Ho1 & _).
  rewrite E1 in Hres. cbn [for_each] in Hres. unfold bind at 1 in Hres.
  rewrite (click_tab_clicked tab _ tab_text text title) in Hres by done.
  cbn [pages_data set_pages] in Hres.
  exists r1. cbv zeta.
  destruct (existsb _ (pages_data s ++ r1)) eqn:Hex.
  - destruct (tab_loop_round after (set_pages (pages_data s ++ r1) s))
      as (r3 & E & Hl3 & _ & Hf3).
    exists r3. cbn [pages_data set_pages] in E, Hf3.
    rewrite E in Hres. cbn [snd pages_data set_pages] in Hres. subst result.
    split; [done |]. split; [done |]. split; [done |]. split.
    + intros (p & Hp & Heq). split; [done |].
      eapply Forall_impl; [exact Hf3 |]. intros q Hq Heq'.
      apply (Hq p Hp). congruence.
    + intros Hnone. apply existsb_same_start in Hex as (p & Hp & Heq).
      by destruct (Hnone p Hp).
  - destruct (tab_loop_round after
                (set_pages ((pages_data s ++ r1)
                              ++ [tab_data_of (tab_url tab) title tab_text text])
                   (set_pages (pages_data s ++ r1) s)))
      as (r3 & E & Hl3 & _ & _).
    exists r3. cbn [pages_data set_pages] in E.
    rewrite E in Hres. cbn [snd pages_data set_pages] in Hres. subst result.
    split; [done |]. split; [done |]. split; [done |]. split.
    + intros Hsome. apply existsb_same_start in Hsome. congruence.
    + intros _. by rewrite <- !app_assoc.
Qed.

(** The scraping loop raises on no URL that [urlparse] accepts. *)
Lemma scrape_loop_returns (w : World) (urls : list pystr) (s : Scraper) :
  (∀ u, u ∈ urls → is_Some (urlparse_netloc w u)) →
  fst (for_each urls (scrape_unvisited w) s) = Some tt.
Proof.
  revert s; induction urls as [|url urls IH]; intros s Hurls; [done |].
  cbn [for_each]. unfold bind at 1.
  assert (fst (scrape_unvisited w url s) = Some tt) as Hstep.
  { unfold scrape_unvisited, bind, get, ret.
    destruct (bool_decide (url ∉ visited_urls s)); [|done].
    rewrite scrape_page_eq.
    destruct (bool_decide (url ∈ visited_urls s)); [done |].
    destruct (max_pages s <=? _)%Z; [done |].
    destruct (Hurls url) as [d ->]; [left |].
    destruct (bool_decide (d ≠ base_domain s)); [done |].
    cbv zeta. by destruct (load w url). }
  destruct (scrape_unvisited w url s) as [[[]|] s1]; [|done].
  apply IH. intros u Hu. apply Hurls. by right.
Qed.

Lemma scraped_inv_not_tab (w : World) (s : Scraper) :
  scraped_inv w s → Forall (λ p, is_tab p = None) (pages_data s).
Proof.
  intros (_ & Hf). eapply Forall_impl; [exact Hf |].
  by intros p ((pg & _ & ->) & _).
Qed.

(** A crawl whose start page loads and whose candidates all parse goes
    through the sweep, on a page list of scraped records only. *)
Lemma crawl_reaches_sweep (w : World) (start : pystr) (max : Z)
    (self0 : Scraper) (pg : Loaded) (X : gset pystr) :
  (∀ Y, set_order w Y ≡ₚ elements Y) →
  __init__ w start max = Some self0 →
  (0 < max)%Z →
  load w start = Some pg →
  nav_urls_of w (base_domain self0) (page_data_of start pg) = Some X →
  ∃ s2, crawl w self0 = snd (_click_tabs w s2)
        ∧ Forall (λ p, is_tab p = None) (pages_data s2).
Proof.
  intros Hperm Hinit Hmax Hload HX.
  rewrite (crawl_eq w _ _ _ Hinit).
  assert ((max <=? 0)%Z = false) as -> by (apply Z.leb_gt; lia).
  rewrite Hload. cbv zeta. rewrite HX.
  set (s1 := set_pages [page_data_of start pg] (set_visited {[start]} self0)).
  pose proof (scrape_loop_returns w (attempted w max X) s1) as Hret.
  pose proof (scrape_loop_steps w (attempted w max X) s1) as Hsteps.
  destruct (for_each _ (scrape_unvisited w) s1) as [o s2].
  cbn [fst snd] in Hret, Hsteps. rewrite Hret.
  2:{ intros u Hu. unfold attempted, slice_to in Hu.
      assert (u ∈ set_order w X) as Hu'
        by (destruct (_ <? 0)%Z;
            exact (sublist_subseteq _ _ (sublist_take _ _) u Hu)).
      clear Hu. rename Hu' into Hu.
      rewrite (Hperm X) in Hu. apply elem_of_elements in Hu.
      rewrite (add_candidates_same_domain w _ _ _ _ HX) by set_solver.
      done. }
  exists s2. split; [done |].
  apply (scraped_inv_not_tab w).
  eapply scrape_steps_scraped_inv; [exact Hsteps |].
  by apply first_page_scraped_inv.
Qed.

(** Where the tab records of a crawl come from: each is built from
    what the browser returned for one of the first five tab elements. *)
Lemma crawl_tab_origin (w : World) (start : pystr) (max : Z)
    (self0 : Scraper) (p : PageRecord) :
  __init__ w start max = Some self0 →
  p ∈ pages_data (crawl w self0) →
  is_tab p = Some true →
  ∃ tabs tab, tab_elements w = Some tabs ∧ tab ∈ take 5 tabs ∧ tab_record_of tab p.
Proof.
  intros Hinit Hp Htab.
  assert (∀ s, Forall (λ p, is_tab p = None) (pages_data s) →
               p ∈ pages_data s → False) as Hscraped.
  { intros s Hs Hin. rewrite Forall_forall in Hs.
    specialize (Hs p Hin). congruence. }
  rewrite (crawl_eq w _ _ _ Hinit) in Hp.
  destruct (init_inv w _ _ _ Hinit) as (_ & _ & _ & _ & Hnil & _).
  destruct (max <=? 0)%Z.
  { rewrite Hnil in Hp. by apply elem_of_nil in Hp. }
  destruct (load w start) as [pg|] eqn:Hload.
  2:{ cbn in Hp. rewrite Hnil in Hp. by apply elem_of_nil in Hp. }
  cbv zeta in Hp.
  pose proof (first_page_scraped_inv w start pg self0 Hload) as Hinv1.
  destruct (nav_urls_of w (base_domain self0) (page_data_of start pg)) as [X|].
  2:{ destruct (Hscraped _ (scraped_inv_not_tab w _ Hinv1) Hp). }
  pose proof (scrape_loop_steps w (attempted w max X)
                (set_pages [page_data_of start pg]
                   (set_visited {[start]} self0))) as Hsteps.
  destruct (for_each _ (scrape_unvisited w) _) as [[[]|] s2]; cbn [snd] in Hsteps.
  2:{ destruct (Hscraped s2); [|done].
      apply (scraped_inv_not_tab w).
      by eapply scrape_steps_scraped_inv. }
  assert (Forall (λ p, is_tab p = None) (pages_data s2)) as Hs2.
  { apply (scraped_inv_not_tab w). by eapply scrape_steps_scraped_inv. }
  unfold _click_tabs in Hp. unfold try_pass at 1 in Hp.
  destruct (tab_elements w) as [tabs|] eqn:Htabs.
  2:{ destruct (Hscraped s2 Hs2). exact Hp. }
  destruct (tab_loop_round (take 5 tabs) s2) as (recs & E & _ & Ho & _).
  rewrite E in Hp. cbn [snd pages_data set_pages] in Hp.
  apply elem_of_app in Hp as [Hp | Hp]; [destruct (Hscraped s2 Hs2 Hp) |].
  rewrite Forall_forall in Ho. destruct (Ho p Hp) as (tab & Hin & Hrec).
  by exists tabs, tab.
Qed.

(** C6.  Let [tab] be one of the first five tab elements, with a label
    that is not blank and a click and reads that succeed; [before] and
    [after] are the tab elements around it.  When the sweep reaches it,
    the pages list is the list the sweep began with followed by the
    records of tabs of [before].  If a record of that list has the same
    first 500 characters of text as the tab's text, nothing is appended
    for the tab, and no later tab adds a record opening like it;
    otherwise the tab's record is appended right there.  This holds of
    [_click_tabs] from any state, and of the pages a crawl returns when
    its start page loads and its candidates parse: there the sweep
    begins with the scraped pages. *)
Theorem C6_tab_dedup (w : World) (tabs before after : list TabOutcome)
    (tab : TabOutcome) (tab_text text title : pystr) :
  tab_elements w = Some tabs →
  take 5 tabs = before ++ tab :: after →
  tab_inner_text tab = Some tab_text →
  strip tab_text ≠ [] →
  tab_click_ok tab = true →
  tab_body_text tab = Some text →
  tab_title tab = Some title →
  let tab_data := tab_data_of (tab_url tab) title tab_text text in
  let sweep_from (begin result : list PageRecord) : Prop :=
    ∃ recs_before recs_after,
      let seen := begin ++ recs_before in
      length recs_before ≤ length before
      ∧ Forall (λ q, ∃ tab', tab' ∈ before ∧ tab_record_of tab' q) recs_before
      ∧ length recs_after ≤ length after
      ∧ ((∃ p, p ∈ seen ∧ take 500 (Scraper.text p) = take 500 text) →
         result = seen ++ recs_after
         ∧ Forall (λ q, take 500 (Scraper.text q) ≠ take 500 text) recs_after)
      ∧ ((∀ p, p ∈ seen → take 500 (Scraper.text p) ≠ take 500 text) →
         result = seen ++ tab_data :: recs_after) in
  (∀ self, sweep_from (pages_data self) (pages_data (snd (_click_tabs w self))))
  ∧ (∀ start max self0 pg X,
       (∀ Y, set_order w Y ≡ₚ elements Y) →
       __init__ w start max = Some self0 →
       (0 < max)%Z →
       load w start = Some pg →
       nav_urls_of w (base_domain self0) (page_data_of start pg) = Some X →
       ∃ scraped,
         Forall (λ p, is_tab p = None) scraped
         ∧ sweep_from scraped (pages (scrape w self0))).
Proof.
  intros Htabs Hsplit Hlabel Hblank Hclick Hbody Htitle. cbv zeta. split.
  - intros self. by eapply sweep_around.
  - intros start max self0 pg X Hperm Hinit Hmax Hload HX.
    destruct (crawl_reaches_sweep w _ _ _ _ _ Hperm Hinit Hmax Hload HX)
      as (s2 & Hc & Hs2).
    exists (pages_data s2). split; [done |].
    unfold scrape. cbn [pages]. rewrite Hc. by eapply sweep_around.
Qed.

Lemma C6_witness :
  pages_data (snd (_click_tabs plain_world
                     (mkScraper home 2 (lit "example.com") {[home]}
                        [page_data_of home home_page])))
  = [page_data_of home home_page;
     tab_data_of home (lit "Home") (lit " Features ") (lit "Feature list")].
Proof.
  pose proof (C6_tab_dedup plain_world [features_tab] [] [] features_tab
                (lit " Features ") (lit "Feature list") (lit "Home")
                eq_refl eq_refl eq_refl) as H.
  do 4 (lapply H; [clear H; intros H | by vm_compute]).
  cbv zeta in H. destruct H as [H _].
  destruct (H (mkScraper home 2 (lit "example.com") {[home]}
                 [page_data_of home home_page]))
    as (rb & ra & Hb & _ & Ha & _ & Happend).
  destruct rb as [|? ?]; [|cbn in Hb; lia].
  destruct ra as [|? ?]; [|cbn in Ha; lia].
  rewrite Happend; [reflexivity |].
  intros p [->|[]%elem_of_nil]%elem_of_cons. by vm_compute.
Defined.

End TabSweep.

(** ** The records of a completed crawl *)
Section CrawlRecords.
Import PyStr Scraper CrawlShape Fixtures.

Lemma tab_records_after_elem (prev recs : list PageRecord) (p : PageRecord) :
  tab_records_after prev recs → p ∈ recs →
  ∃ current_url title tab_text text,
    p = tab_data_of current_url title tab_text text ∧ strip tab_text ≠ [].
Proof.
  intros Hrecs (pre & post & ->)%list_elem_of_split.
  destruct (Hrecs pre p post eq_refl) as (u & ti & tt & tx & -> & Hne & _).
  by exists u, ti, tt, tx.
Qed.

(** X4.  The scraped pages of a completed crawl have pairwise distinct
    URLs, and each of them holds what the browser read at its URL, cut to
    the limits of [page_data]; the records behind them are tab records. *)
Theorem X4_scraped_pages_distinct (w : World) (start : pystr) (max : Z)
    (self0 : Scraper) :
  __init__ w start max = Some self0 →
  ∃ scraped tabs,
    pages (scrape w self0) = scraped ++ tabs
    ∧ NoDup (url <$> scraped)
    ∧ Forall (λ p, ∃ pg, load w (url p) = Some pg ∧ p = page_data_of (url p) pg)
        scraped
    ∧ Forall (λ p, is_tab p = Some true) tabs.
Proof.
  intros Hinit.
  destruct (crawl_result w _ _ _ Hinit)
    as (scraped & recs & Heq & Hnd & Hf & _ & Hrecs & _).
  exists scraped, recs. split; [done |]. split; [done |]. split.
  - eapply Forall_impl; [exact Hf |]. by intros p (? & _).
  - apply Forall_forall. intros p Hp.
    destruct (tab_records_after_elem _ _ _ Hrecs Hp) as (? & ? & ? & ? & -> & _).
    done.
Qed.

Lemma X4_witness :
  ∃ scraped tabs,
    pages (scrape plain_world (mkScraper home 3 (lit "example.com") ∅ []))
    = scraped ++ tabs
    ∧ NoDup (url <$> scraped)
    ∧ Forall (λ p, ∃ pg, load plain_world (url p) = Some pg
                         ∧ p = page_data_of (url p) pg) scraped
    ∧ Forall (λ p, is_tab p = Some true) tabs.
Proof.
  apply (X4_scraped_pages_distinct plain_world home 3
           (mkScraper home 3 (lit "example.com") ∅ [])).
  reflexivity.
Defined.

(** X5.  Every record of a completed crawl respects the limits: at most
    15000 characters of text, at most 50 clickables and at most 20
    navigation items. *)
Theorem X5_record_limits (w : World) (start : pystr) (max : Z)
    (self0 : Scraper) (p : PageRecord) :
  __init__ w start max = Some self0 →
  p ∈ pages (scrape w self0) →
  length (text p) ≤ 15000
  ∧ (∀ cs, clickables p = Some cs → length cs ≤ 50)
  ∧ (∀ ns, nav_items p = Some ns → length ns ≤ 20).
Proof.
  intros Hinit Hp.
  destruct (crawl_result w _ _ _ Hinit)
    as (scraped & recs & Heq & _ & Hf & _ & Hrecs & _).
  unfold scrape in Hp. cbn in Hp. rewrite Heq in Hp.
  apply elem_of_app in Hp as [Hp | Hp].
  - rewrite Forall_forall in Hf. destruct (Hf p Hp) as ((pg & _ & ->) & _).
    unfold page_data_of; cbn. split; [rewrite length_take; lia |].
    split; intros ? [= <-]; rewrite length_take; lia.
  - destruct (tab_records_after_elem _ _ _ Hrecs Hp) as (? & ? & ? & ? & -> & _).
    unfold tab_data_of; cbn. split; [rewrite length_take; lia |]. done.
Qed.

Lemma X5_witness :
  length (text (page_data_of home home_page)) ≤ 15000.
Proof.
  refine (proj1 (X5_record_limits plain_world home 3
                   (mkScraper home 3 (lit "example.com") ∅ [])
                   (page_data_of home home_page) _ _)).
  - reflexivity.
  - apply (bool_decide_unpack _). vm_compute. exact I.
Defined.

(** X6.  Every tab record of a completed crawl comes from one of the
    first five tab elements: its name is the label the browser returned
    for that element, stripped, which is not empty and has no blank at
    either end; its title is the page title read after the click,
    followed by [" - "] and that name; its URL is the page's URL after
    the click and its text the first 15000 characters read there. *)
Theorem X6_tab_record_label (w : World) (start : pystr) (max : Z)
    (self0 : Scraper) (p : PageRecord) :
  __init__ w start max = Some self0 →
  p ∈ pages (scrape w self0) →
  is_tab p = Some true →
  ∃ tabs tab raw_label page_title body,
    tab_elements w = Some tabs
    ∧ tab ∈ take 5 tabs
    ∧ tab_inner_text tab = Some raw_label
    ∧ tab_title tab = Some page_title
    ∧ tab_body_text tab = Some body
    ∧ tab_name p = Some (strip raw_label)
    ∧ title p = page_title ++ lit " - " ++ strip raw_label
    ∧ url p = tab_url tab
    ∧ text p = take 15000 body
    ∧ strip raw_label ≠ []
    ∧ (∀ c, head (strip raw_label) = Some c → isspace c = false)
    ∧ (∀ c, last (strip raw_label) = Some c → isspace c = false).
Proof.
  intros Hinit Hp Htab.
  destruct (crawl_tab_origin w _ _ _ p Hinit Hp Htab)
    as (tabs & tab & Htabs & Hin & raw & body & ti & Hraw & Hne & _ & Hbody & Hti & ->).
  exists tabs, tab, raw, ti, body.
  destruct (strip_edges raw). by split_and!.
Qed.

Lemma X6_witness :
  let p := tab_data_of home (lit "Home") (lit " Features ") (lit "Feature list") in
  ∃ tabs tab raw_label page_title body,
    tab_elements plain_world = Some tabs
    ∧ tab ∈ take 5 tabs
    ∧ tab_inner_text tab = Some raw_label
    ∧ tab_title tab = Some page_title
    ∧ tab_body_text tab = Some body
    ∧ tab_name p = Some (strip raw_label)
    ∧ title p = page_title ++ lit " - " ++ strip raw_label
    ∧ url p = tab_url tab
    ∧ text p = take 15000 body
    ∧ strip raw_label ≠ []
    ∧ (∀ c, head (strip raw_label) = Some c → isspace c = false)
    ∧ (∀ c, last (strip raw_label) = Some c → isspace c = false).
Proof.
  cbv zeta.
  apply (X6_tab_record_label plain_world home 3
           (mkScraper home 3 (lit "example.com") ∅ [])).
  - reflexivity.
  - apply (bool_decide_unpack _). vm_compute. exact I.
  - reflexivity.
Defined.

End CrawlRecords.

(** ** Tabs, discovery and revisits *)
Section CrawlBehaviour.
Import PyStr Scraper CrawlShape Fixtures.

Lemma app_eq_tab_split (scraped recs pre post : list PageRecord) (p : PageRecord) :
  Forall (λ q, is_tab q = None) scraped →
  is_tab p = Some true →
  scraped ++ recs = pre ++ p :: post →
  ∃ pre', pre = scraped ++ pre' ∧ recs = pre' ++ p :: post.
Proof.
  intros Hs Hp. revert pre; induction Hs as [|q scraped Hq _ IH]; intros pre Heq.
  - by exists pre.
  - destruct pre as [|x pre]; simplify_eq/=; try congruence.
    destruct (IH pre) as (pre' & -> & ->); [done |]. by exists pre'.
Qed.

Lemma take_500_of_15000 (l : pystr) : take 500 (take 15000 l) = take 500 l.
Proof.
  rewrite take_take. reflexivity.
Qed.

(** X7.  In the pages of a completed crawl no tab record repeats the
    first 500 characters of the text of a record in front of it. *)
Theorem X7_tab_records_differ (w : World) (start : pystr) (max : Z)
    (self0 : Scraper) (pre post : list PageRecord) (p : PageRecord) :
  __init__ w start max = Some self0 →
  pages (scrape w self0) = pre ++ p :: post →
  is_tab p = Some true →
  Forall (λ q, take 500 (text q) ≠ take 500 (text p)) pre.
Proof.
  intros Hinit Hpages Htab.
  destruct (crawl_result w _ _ _ Hinit)
    as (scraped & recs & Heq & _ & Hf & _ & Hrecs & _).
  unfold scrape in Hpages. cbn in Hpages. rewrite Heq in Hpages.
  destruct (app_eq_tab_split scraped recs pre post p) as (pre' & -> & ->);
    [|done|done|].
  { eapply Forall_impl; [exact Hf |]. by intros q ((pg & _ & ->) & _). }
  destruct (Hrecs pre' p post eq_refl) as (u & ti & tt & tx & -> & _ & Hdiff).
  eapply Forall_impl; [exact Hdiff |]. intros q Hq.
  unfold tab_data_of; cbn [Scraper.text]. by rewrite take_500_of_15000.
Qed.

Lemma X7_witness :
  Forall (λ q, take 500 (text q)
               ≠ take 500 (text (tab_data_of home (lit "Home") (lit " Features ")
                                   (lit "Feature list"))))
    [page_data_of home home_page].
Proof.
  refine (X7_tab_records_differ plain_world home 1
            (mkScraper home 1 (lit "example.com") ∅ [])
            [page_data_of home home_page] []
            (tab_data_of home (lit "Home") (lit " Features ") (lit "Feature list"))
            _ _ _).
  - reflexivity.
  - vm_compute. reflexivity.
  - reflexivity.
Defined.

(** X8.  When [urlparse] raises on an href of the start page while the
    candidates are collected, the crawl stops there: the start page is
    all it returns, no candidate is scraped and no tab is clicked. *)
Theorem X8_discovery_raises (w : World) (start : pystr) (max : Z)
    (self0 : Scraper) (pg : Loaded) :
  __init__ w start max = Some self0 →
  (0 < max)%Z →
  load w start = Some pg →
  nav_urls_of w (base_domain self0) (page_data_of start pg) = None →
  pages (scrape w self0) = [page_data_of start pg]
  ∧ visited_urls (crawl w self0) = {[start]}.
Proof.
  intros Hinit Hmax Hload HX. unfold scrape. cbn.
  rewrite (crawl_eq w _ _ _ Hinit).
  assert ((max <=? 0)%Z = false) as -> by (apply Z.leb_gt; lia).
  rewrite Hload. cbv zeta. rewrite HX. done.
Qed.

Lemma X8_witness :
  let bad_page := mkLoaded (lit "Home") (lit "Welcome")
                    [mkClickable Link (lit "Broken") (Some (lit "http://[::1"))] [] in
  let w := mkWorld ascii_netloc (λ _, Some bad_page) elements (Some [features_tab]) in
  pages (scrape w (mkScraper home 5 (lit "example.com") ∅ []))
  = [page_data_of home bad_page].
Proof.
  cbv zeta.
  refine (proj1 (X8_discovery_raises _ home 5
                   (mkScraper home 5 (lit "example.com") ∅ []) _ _ _ _ _)).
  - reflexivity.
  - lia.
  - reflexivity.
  - vm_compute. reflexivity.
Defined.

(** X9.  A second call of [_scrape_page] for the same URL never scrapes:
    it appends no record and leaves [self] as the first call left it. *)
Theorem X9_no_second_scrape (w : World) (url : pystr) (self : Scraper) :
  let self' := snd (_scrape_page w url self) in
  snd (_scrape_page w url self') = self'
  ∧ ∀ p, fst (_scrape_page w url self') ≠ Some (Some p).
Proof.
  cbv zeta. rewrite (scrape_page_eq w url self).
  destruct (bool_decide (url ∈ visited_urls self)) eqn:Hv.
  { cbn [snd]. rewrite scrape_page_eq, Hv. done. }
  destruct (max_pages self <=? _)%Z eqn:Hm.
  { cbn [snd]. rewrite scrape_page_eq, Hv, Hm. done. }
  destruct (urlparse_netloc w url) as [d|] eqn:Hd.
  2:{ cbn [snd]. rewrite scrape_page_eq, Hv, Hm, Hd. done. }
  destruct (bool_decide (d ≠ base_domain self)) eqn:Hdom.
  { cbn [snd]. rewrite scrape_page_eq, Hv, Hm, Hd, Hdom. done. }
  cbv zeta. destruct (load w url); cbn [snd]; rewrite scrape_page_eq;
    cbn [visited_urls set_pages set_visited];
    rewrite bool_decide_eq_true_2 by set_solver; done.
Qed.

(** X10.  A crawl only adds: whatever state it starts from, the records
    it finds stay in front, unchanged and in order, every visited URL
    stays visited, and the start URL, the budget and the base domain
    stay as they were. *)
Theorem X10_crawl_only_appends (w : World) (self : Scraper) :
  pages_data self `prefix_of` pages_data (crawl w self)
  ∧ visited_urls self ⊆ visited_urls (crawl w self)
  ∧ start_url (crawl w self) = start_url self
  ∧ max_pages (crawl w self) = max_pages self
  ∧ base_domain (crawl w self) = base_domain self.
Proof.
  destruct (crawl_phases w self) as (s1 & recs & Hs1 & -> & _ & _).
  cbn [pages_data visited_urls start_url max_pages base_domain set_pages].
  destruct (scrape_steps_frame w _ _ Hs1) as (? & ? & ?).
  split.
  - etrans; [apply (scrape_steps_pages_prefix w _ _ Hs1) | by eexists].
  - split; [by apply (scrape_steps_visited_grows w) | done].
Qed.

(** X11.  With a page budget of one only the start URL is ever visited:
    every scraped page of the result is the start page, however many
    links it has. *)
Theorem X11_budget_of_one (w : World) (start : pystr) (self0 : Scraper)
    (p : PageRecord) :
  __init__ w start 1 = Some self0 →
  visited_urls (crawl w self0) = {[start]}
  ∧ (p ∈ pages (scrape w self0) → is_tab p = None → url p = start).
Proof.
  intros Hinit.
  destruct (crawl_result w _ _ _ Hinit)
    as (scraped & recs & Heq & _ & Hf & _ & Hrecs & _).
  assert (visited_urls (crawl w self0) = {[start]}) as Hvis.
  { destruct (crawl_cases w _ _ _ Hinit)
      as [(_ & [(? & _) | (_ & _ & Hv)])
         | [(pg & _ & _ & _ & ->) | (pg & X & recs' & _ & _ & _ & Hc)]];
      [lia | done | done |].
    cbv zeta in Hc. destruct Hc as (-> & _).
    cbn [visited_urls set_pages].
    pose proof (scrape_loop_steps w (attempted w 1 X)
                  (set_pages [page_data_of start pg]
                     (set_visited {[start]} self0))) as Hsteps.
    apply scrape_steps_budget_spent in Hsteps as ->; [done |].
    cbn [max_pages visited_urls set_pages set_visited]. rewrite size_singleton.
    unfold __init__ in Hinit.
    destruct (urlparse_netloc w start); [|done]. injection Hinit as <-. cbn. lia. }
  split; [done |]. intros Hp Htab.
  unfold scrape in Hp. cbn in Hp. rewrite Heq in Hp.
  apply elem_of_app in Hp as [Hp | Hp].
  - rewrite Forall_forall in Hf. destruct (Hf p Hp) as (_ & Hin).
    rewrite Hvis in Hin. set_solver.
  - destruct (tab_records_after_elem _ _ _ Hrecs Hp) as (? & ? & ? & ? & -> & _).
    done.
Qed.

Lemma X11_witness :
  visited_urls (crawl plain_world (mkScraper home 1 (lit "example.com") ∅ []))
  = {[home]}.
Proof.
  refine (proj1 (X11_budget_of_one plain_world home
                   (mkScraper home 1 (lit "example.com") ∅ [])
                   (page_data_of home home_page) _)).
  reflexivity.
Defined.

Lemma slice_to_elem_of {A} (n : Z) (l : list A) (x : A) :
  x ∈ slice_to n l → x ∈ l.
Proof.
  unfold slice_to. destruct (n <? 0)%Z; intros Hx;
    exact (sublist_subseteq _ _ (sublist_take _ _) x Hx).
Qed.

(** Every candidate is an href of the page it was collected from. *)
Lemma add_candidates_from_hrefs (w : World) (base : pystr)
    (hrefs : list (option pystr)) (acc X : gset pystr) (v : pystr) :
  add_candidates w base hrefs acc = Some X →
  v ∈ X → v ∈ acc ∨ Some v ∈ hrefs.
Proof.
  revert acc; induction hrefs as [|h hrefs IH]; intros acc; cbn [add_candidates].
  - intros [= <-]. auto.
  - destruct (add_candidate w base h acc) as [acc'|] eqn:Hadd; [|done].
    cbn. intros HX Hv. destruct (IH acc' HX Hv) as [Hin | Hin].
    + unfold add_candidate in Hadd. destruct h as [[|c h]|]; simplify_eq; auto.
      destruct (urlparse_netloc w (c :: h)) as [d|]; simplify_eq/=.
      case_bool_decide; auto.
      apply elem_of_union in Hin as [->%elem_of_singleton | Hin]; auto.
      right. left.
    + right. by right.
Qed.

(** X12.  The crawl is one level deep: every URL it visits besides the
    start URL is an href of a navigation item or of a link among the
    first 20 navigation items and first 50 clickables read on the start
    page.  Links found on any other page are never followed. *)
Theorem X12_one_level_deep (w : World) (start : pystr) (max : Z)
    (self0 : Scraper) (v : pystr) :
  (∀ Y, set_order w Y ≡ₚ elements Y) →
  __init__ w start max = Some self0 →
  v ∈ visited_urls (crawl w self0) →
  v ≠ start →
  ∃ pg, load w start = Some pg
        ∧ Some v ∈ first_page_hrefs (page_data_of start pg).
Proof.
  intros Hperm Hinit Hv Hne.
  destruct (crawl_cases w _ _ _ Hinit)
    as [(_ & [(_ & Hvis) | (_ & _ & Hvis)])
       | [(pg & _ & _ & _ & Hc) | (pg & X & recs & Hload & _ & HX & Hc)]].
  - rewrite Hvis in Hv. set_solver.
  - rewrite Hvis in Hv. set_solver.
  - rewrite Hc in Hv. cbn in Hv. set_solver.
  - cbv zeta in Hc. destruct Hc as (Hc & _). rewrite Hc in Hv.
    cbn [visited_urls set_pages] in Hv.
    apply scrape_loop_visited in Hv. cbn [visited_urls set_pages set_visited] in Hv.
    apply elem_of_union in Hv as [Hv | Hv]; [set_solver |].
    apply elem_of_list_to_set in Hv. apply slice_to_elem_of in Hv.
    rewrite (Hperm X) in Hv. apply elem_of_elements in Hv.
    exists pg. split; [done |].
    destruct (add_candidates_from_hrefs w _ _ _ _ v HX Hv) as [Hin | Hin];
      [set_solver | done].
Qed.

Lemma X12_witness :
  ∃ pg, load plain_world home = Some pg
        ∧ Some about ∈ first_page_hrefs (page_data_of home pg).
Proof.
  refine (X12_one_level_deep plain_world home 3
            (mkScraper home 3 (lit "example.com") ∅ []) about _ _ _ _).
  - intros Y. reflexivity.
  - reflexivity.
  - apply (bool_decide_unpack _). vm_compute. exact I.
  - by vm_compute.
Defined.

End CrawlBehaviour.

(** ** More on the response splitter *)
Section SplitterMore.
Import PyStr Re Generator Fixtures.

(** X13.  Whatever the response, whenever the splitter returns, neither
    returned text starts or ends with whitespace. *)
Theorem X13_parse_response_trimmed (lower : pystr → pystr)
    (safe_load : pystr → SafeLoad)
    (content company_name home_url : pystr) (r : pystr * pystr) (c : N) :
  _parse_response lower safe_load content company_name home_url = Some r →
  (head r.1 = Some c → isspace c = false)
  ∧ (last r.1 = Some c → isspace c = false)
  ∧ (head r.2 = Some c → isspace c = false)
  ∧ (last r.2 = Some c → isspace c = false).
Proof.
  assert (∀ a b, let r := (_clean_yaml a, _clean_yaml b) in
            (head r.1 = Some c → isspace c = false)
            ∧ (last r.1 = Some c → isspace c = false)
            ∧ (head r.2 = Some c → isspace c = false)
            ∧ (last r.2 = Some c → isspace c = false)) as H.
  { intros a b. cbn. unfold _clean_yaml.
    split_and!; apply strip_edges. }
  intros ->%parse_response_Some. unfold response_texts.
  destruct (contains MARKER content); [apply H |].
  destruct (search re_playbook_start content); apply H.
Qed.

Lemma X13_witness :
  let r := (lit "name: Maya", lit "meta: x") in
  (head r.1 = Some 110%N → isspace 110 = false)
  ∧ (last r.1 = Some 110%N → isspace 110 = false)
  ∧ (head r.2 = Some 110%N → isspace 110 = false)
  ∧ (last r.2 = Some 110%N → isspace 110 = false).
Proof.
  cbv zeta.
  apply (X13_parse_response_trimmed ascii_lower yaml_load
           (lit "  name: Maya ---SPLIT--- meta: x ")
           (lit "Acme") (lit "https://acme.example/")).
  vm_compute. reflexivity.
Defined.

(** X17.  The normalized company id contains no space, no hyphen and no
    underscore. *)
Theorem X17_company_id_separators (lower : pystr → pystr) (company_name : pystr) :
  let company_id := company_id_of lower company_name in
  (32%N ∉ company_id) ∧ (45%N ∉ company_id) ∧ (95%N ∉ company_id).
Proof.
  cbv zeta. unfold company_id_of, remove_char.
  split_and!; rewrite !list_elem_of_filter; naive_solver.
Qed.

(** A separator that holds no newline cannot begin in front of a
    newline and end behind it. *)
Lemma startswith_before_newline (m a b : pystr) :
  NL ∉ m → startswith m (a ++ NL :: b) = true → startswith m a = true.
Proof.
  revert a; induction m as [|x m IH]; intros a Hm; [done |].
  apply not_elem_of_cons in Hm as [Hx Hm].
  destruct a as [|y a]; cbn.
  - intros [Heq _]%andb_true_iff. apply N.eqb_eq in Heq. congruence.
  - intros [Heq Hrest]%andb_true_iff. rewrite Heq. cbn. by apply IH.
Qed.

Lemma find_behind_newline (sep P rest : pystr) :
  NL ∉ sep → sep ≠ [] → find sep P = None →
  find sep (P ++ NL :: sep ++ rest) = Some (S (length P)).
Proof.
  intros Hnl Hne. induction P as [|c P IH]; intros Hfind.
  - cbn [app length find].
    destruct (startswith sep (NL :: sep ++ rest)) eqn:Hs.
    { destruct sep as [|x sep]; [done |]. cbn in Hs.
      apply andb_true_iff in Hs as [Heq _]. apply N.eqb_eq in Heq.
      apply not_elem_of_cons in Hnl as [? _]. congruence. }
    assert (find sep (sep ++ rest) = Some 0) as ->; [|done].
    destruct (sep ++ rest) eqn:E; cbn;
      (assert (startswith sep (sep ++ rest) = true) as Hp
         by (apply startswith_prefix; by eexists));
      rewrite E in Hp; by rewrite Hp.
  - cbn [find] in Hfind.
    destruct (startswith sep (c :: P)) eqn:Hs; [done |].
    destruct (find sep P) eqn:HP; [done |].
    change ((c :: P) ++ NL :: sep ++ rest) with (c :: (P ++ NL :: sep ++ rest)).
    cbn [find length].
    destruct (startswith sep (c :: P ++ NL :: sep ++ rest)) eqn:Hs'.
    { apply (startswith_before_newline sep (c :: P)) in Hs'; [congruence | done]. }
    by rewrite IH.
Qed.

Lemma find_newline_front (sep s : pystr) :
  NL ∉ sep → sep ≠ [] → find sep s = None → find sep (NL :: s) = None.
Proof.
  intros Hnl Hne Hs. cbn [find].
  destruct (startswith sep (NL :: s)) eqn:E; [|by rewrite Hs].
  destruct sep as [|x sep]; [done |]. cbn in E.
  apply andb_true_iff in E as [Heq _]. apply N.eqb_eq in Heq.
  apply not_elem_of_cons in Hnl as [? _]. congruence.
Qed.

Lemma strip_line (s : pystr) :
  (∀ c, head s = Some c → isspace c = false) →
  (∀ c, last s = Some c → isspace c = false) →
  strip (s ++ [NL]) = s ∧ strip (NL :: s) = s.
Proof.
  intros Hh Hl. split.
  - unfold strip. destruct s as [|c s]; [done |].
    rewrite (lstrip_id ((c :: s) ++ [NL])) by (intros ? [= <-]; by apply Hh).
    by apply rstrip_newline.
  - change (strip (NL :: s)) with (strip s). by apply strip_id.
Qed.

(** X14.  Two clean texts joined by the marker on a line of its own come
    back as they were: for [P] and [Q] on which [yaml.safe_load] raises
    nothing but [yaml.YAMLError], that do not hold the marker, have no
    line opening with three backticks and neither start nor end with
    whitespace, the response [P], newline, marker, newline, [Q] is split
    into exactly [P] and [Q]. *)
Theorem X14_marker_round_trip (lower : pystr → pystr)
    (safe_load : pystr → SafeLoad) (P Q company_name home_url : pystr) :
  escapes (safe_load P) = false → escapes (safe_load Q) = false →
  find MARKER P = None → find MARKER Q = None →
  has_fence_line P = false → has_fence_line Q = false →
  (∀ c, head P = Some c → isspace c = false) →
  (∀ c, last P = Some c → isspace c = false) →
  (∀ c, head Q = Some c → isspace c = false) →
  (∀ c, last Q = Some c → isspace c = false) →
  _parse_response lower safe_load (P ++ [NL] ++ MARKER ++ [NL] ++ Q)
    company_name home_url
  = Some (P, Q).
Proof.
  intros HsP HsQ HP HQ HfP HfQ HhP HlP HhQ HlQ.
  rewrite (parse_response_eq lower safe_load _ _ _ P Q); [by rewrite HsP, HsQ |].
  assert (NL ∉ MARKER) as Hnl by (apply (bool_decide_unpack _); by vm_compute).
  assert (MARKER ≠ []) as Hne by done.
  change (P ++ [NL] ++ MARKER ++ [NL] ++ Q) with (P ++ NL :: MARKER ++ NL :: Q).
  pose proof (find_behind_newline MARKER P (NL :: Q) Hnl Hne HP) as Hfind.
  unfold response_texts.
  assert (contains MARKER (P ++ NL :: MARKER ++ NL :: Q) = true) as ->
    by (apply contains_find; by rewrite Hfind).
  rewrite split_unfold by done. rewrite Hfind.
  assert (take (S (length P)) (P ++ NL :: MARKER ++ NL :: Q) = P ++ [NL]) as ->.
  { change (P ++ NL :: MARKER ++ NL :: Q) with (P ++ [NL] ++ (MARKER ++ NL :: Q)).
    rewrite app_assoc. apply take_app_length'. rewrite length_app. cbn. lia. }
  assert (drop (S (length P) + length MARKER) (P ++ NL :: MARKER ++ NL :: Q)
          = NL :: Q) as ->.
  { change (P ++ NL :: MARKER ++ NL :: Q) with (P ++ ([NL] ++ MARKER) ++ NL :: Q).
    rewrite app_assoc. apply drop_app_length'. rewrite !length_app. cbn. lia. }
  rewrite (split_unfold MARKER (NL :: Q)) by done.
  rewrite (find_newline_front MARKER Q Hnl Hne HQ).
  change ((_clean_yaml (strip (P ++ [NL])), _clean_yaml (strip (NL :: Q)))
          = (P, Q)).
  destruct (strip_line P HhP HlP) as [-> _].
  destruct (strip_line Q HhQ HlQ) as [_ ->].
  rewrite !clean_yaml_no_fence by done.
  by rewrite !strip_id.
Qed.

Lemma X14_witness :
  _parse_response ascii_lower yaml_load
    (lit "name: Maya" ++ [NL] ++ MARKER ++ [NL] ++ lit "meta: x")
    (lit "Acme") (lit "https://acme.example/")
  = Some (lit "name: Maya", lit "meta: x").
Proof.
  apply (X14_marker_round_trip ascii_lower yaml_load
           (lit "name: Maya") (lit "meta: x")).
  - reflexivity.
  - reflexivity.
  - reflexivity.
  - reflexivity.
  - reflexivity.
  - reflexivity.
  - intros c [= <-]. reflexivity.
  - intros c [= <-]. reflexivity.
  - intros c [= <-]. reflexivity.
  - intros c [= <-]. reflexivity.
Defined.

End SplitterMore.

(** ** Unwrapping a fenced block *)
Section FenceUnwrap.
Import PyStr Re Generator Fixtures.

Lemma not_space_not_newline (c : N) : isspace c = false → (c =? NL)%N = false.
Proof.
  intros Hc. destruct (N.eqb_spec c NL) as [->|]; [|done]. done.
Qed.

(** The opening pattern on a yaml fence in front of a line of text: the
    fence, the newline and nothing of the text. *)
Lemma fence_open_match_yaml (c : N) (rest : pystr) :
  isspace c = false →
  match_at re_fence_open None (lit "```yaml" ++ NL :: c :: rest) = Some 8.
Proof.
  intros Hc. pose proof (not_space_not_newline c Hc) as Hn.
  change (lit "```yaml" ++ NL :: c :: rest)
    with ([96; 96; 96; 121; 97; 109; 108; NL]%N ++ c :: rest).
  unfold match_at, re_fence_open.
  change (lit "```y") with [96; 96; 96; 121]%N.
  change (lit "a") with [97]%N. change (lit "m") with [109]%N.
  change (lit "l") with [108]%N.
  cbn [rcat rlit rmatch app at_bol star_set N.eqb Pos.eqb].
  change (isspace NL) with true. rewrite Hc, Hn. cbn [length]. f_equal. lia.
Qed.

Lemma fence_open_head (c : N) (rest : pystr) :
  isspace c = false →
  sub_del re_fence_open (lit "```yaml" ++ NL :: c :: rest)
  = sub_go re_fence_open 0 (Some NL) (c :: rest).
Proof.
  intros Hc. unfold sub_del.
  pose proof (fence_open_match_yaml c rest Hc) as Hm.
  change (lit "```yaml" ++ NL :: c :: rest)
    with (96 :: 96 :: 96 :: 121 :: 97 :: 109 :: 108 :: NL :: c :: rest)%N in *.
  cbn [sub_go]. rewrite Hm. reflexivity.
Qed.

(** A substitution that needs three backticks at the start of a line
    passes over lines without them, up to the next newline. *)
Lemma sub_go_keeps_lines (r : re) :
  (∀ prev s n, match_at r prev s = Some n →
               at_bol prev = true ∧ startswith (lit "```") s = true) →
  ∀ body prev tail,
    fence_line_from (at_bol prev) body = false →
    ∃ prev', sub_go r 0 prev (body ++ NL :: tail)
             = body ++ sub_go r 0 prev' (NL :: tail).
Proof.
  intros Hr. induction body as [|c body IH]; intros prev tail Hb.
  - by exists prev.
  - cbn [fence_line_from] in Hb. apply orb_false_iff in Hb as [Hhere Hrest].
    change ((c :: body) ++ NL :: tail) with (c :: (body ++ NL :: tail)).
    cbn [sub_go].
    destruct (match_at r prev (c :: body ++ NL :: tail)) as [n|] eqn:Hm.
    + destruct (Hr _ _ _ Hm) as [Hbol Hp].
      apply (startswith_before_newline (lit "```") (c :: body)) in Hp;
        [|apply (bool_decide_unpack _); by vm_compute].
      rewrite Hbol, Hp in Hhere. done.
    + destruct (IH (Some c) tail Hrest) as (prev' & ->). by exists prev'.
Qed.

Lemma fence_open_tail (prev : option N) :
  sub_go re_fence_open 0 prev (NL :: lit "```") = NL :: lit "```".
Proof.
  cbn [sub_go].
  destruct (match_at re_fence_open prev (NL :: lit "```")) as [n|] eqn:Hm.
  - by apply fence_open_needs_backticks in Hm as [_ Hm].
  - f_equal.
Qed.

Lemma fence_close_tail (prev : option N) :
  sub_go re_fence_close 0 prev (NL :: lit "```") = [NL].
Proof.
  cbn [sub_go].
  destruct (match_at re_fence_close prev (NL :: lit "```")) as [n|] eqn:Hm.
  - by apply fence_close_needs_backticks in Hm as [_ Hm].
  - f_equal.
Qed.

(** X15.  A text wrapped in a yaml code fence is unwrapped: for a
    non-empty [body] with no line that opens with three backticks and no
    whitespace at either end, cleaning the fence line, [body] and the
    closing fence line gives back [body]. *)
Theorem X15_clean_yaml_unwraps_fence (body : pystr) :
  body ≠ [] →
  has_fence_line body = false →
  (∀ c, head body = Some c → isspace c = false) →
  (∀ c, last body = Some c → isspace c = false) →
  _clean_yaml (lit "```yaml" ++ [NL] ++ body ++ [NL] ++ lit "```") = body.
Proof.
  intros Hne Hf Hh Hl. unfold _clean_yaml.
  destruct body as [|c body'] eqn:Hbody; [done |].
  change (lit "```yaml" ++ [NL] ++ (c :: body') ++ [NL] ++ lit "```")
    with (lit "```yaml" ++ NL :: c :: (body' ++ NL :: lit "```")).
  rewrite fence_open_head by (by apply Hh).
  change (c :: body' ++ NL :: lit "```") with ((c :: body') ++ NL :: lit "```").
  rewrite <- Hbody in *.
  destruct (sub_go_keeps_lines re_fence_open fence_open_needs_backticks
              body (Some NL) (lit "```") Hf) as (p1 & ->).
  rewrite fence_open_tail. unfold sub_del.
  destruct (sub_go_keeps_lines re_fence_close fence_close_needs_backticks
              body None (lit "```") Hf) as (p2 & ->).
  rewrite fence_close_tail.
  by destruct (strip_line body Hh Hl) as [-> _].
Qed.

Lemma X15_witness :
  _clean_yaml (lit "```yaml" ++ [NL] ++ (lit "name: Maya" ++ [NL] ++ lit "role: Guide")
                 ++ [NL] ++ lit "```")
  = lit "name: Maya" ++ [NL] ++ lit "role: Guide".
Proof.
  apply (X15_clean_yaml_unwraps_fence (lit "name: Maya" ++ [NL] ++ lit "role: Guide")).
  - done.
  - reflexivity.
  - intros c [= <-]. reflexivity.
  - intros c [= <-]. reflexivity.
Defined.

End FenceUnwrap.

(** ** The split at the playbook's [meta:] key *)
Section PlaybookStart.
Import PyStr Re Generator Fixtures.

Lemma rmatch_rlit_app {R} (l : pystr) (k : option N → pystr → option R)
    (prev : option N) (s : pystr) :
  ∃ pv, rmatch (rlit l) k prev (l ++ s) = k pv s.
Proof.
  revert prev; induction l as [|c l IH]; intros prev; [by exists prev |].
  cbn [rlit rmatch app]. rewrite N.eqb_refl. apply IH.
Qed.

(** A greedy repetition gives characters back until the continuation
    succeeds: it matches whenever some run of the class is followed by
    a text the continuation accepts. *)
Lemma star_set_complete {R} (p : N → bool) (k : option N → pystr → option R)
    (a b : pystr) :
  Forall (λ c, p c = true) a → (∀ pv, is_Some (k pv b)) →
  ∀ prev, is_Some (star_set p k prev (a ++ b)).
Proof.
  intros Ha Hk. induction Ha as [|c a Hc _ IH]; intros prev.
  - destruct b as [|c b]; cbn [app star_set]; [apply Hk |].
    destruct (p c); [|apply Hk].
    destruct (star_set p k (Some c) b); [done | apply Hk].
  - cbn [app star_set]. rewrite Hc.
    by destruct (IH (Some c)) as [r ->].
Qed.

Ltac rlit_step :=
  lazymatch goal with
  | |- context [rmatch (rlit ?l) ?k ?p (?l ++ ?s)] =>
      let pv := fresh "pv" in
      destruct (rmatch_rlit_app l k p s) as (pv & ->)
  end.

Lemma playbook_start_match (ws1 ws2 rest : pystr) (prev : option N) :
  Forall (λ c, isspace c = true) ws1 →
  Forall (λ c, isspace c = true) ws2 → ws2 ≠ [] →
  is_Some (match_at re_playbook_start prev
             (NL :: lit "meta:" ++ ws1 ++ [NL] ++ ws2 ++ lit "company_id:" ++ rest)).
Proof.
  intros H1 H2 Hne. unfold match_at, re_playbook_start.
  generalize (length (NL :: lit "meta:" ++ ws1 ++ [NL] ++ ws2
                        ++ lit "company_id:" ++ rest)).
  intros n. cbn [rcat rmatch]. rewrite N.eqb_refl. rlit_step.
  cbn [rmatch]. apply star_set_complete; [done |].
  intros pv'. cbn [app rmatch]. rewrite N.eqb_refl.
  destruct H2 as [|c ws2 Hc H2]; [done |].
  cbn [app]. rewrite Hc. apply star_set_complete; [done |].
  intros pv''. cbn [rmatch]. rlit_step. done.
Qed.

Lemma playbook_start_needs_meta (prev : option N) (s : pystr) (n : nat) :
  match_at re_playbook_start prev s = Some n →
  startswith (NL :: lit "meta:") s = true.
Proof.
  unfold match_at, re_playbook_start. cbn [rcat rmatch startswith].
  destruct s as [|x s]; [done |].
  rewrite (N.eqb_sym NL x). destruct (x =? NL)%N; [|done].
  intros H. cbn [andb]. eapply rmatch_rlit. by rewrite H.
Qed.

(** The leftmost match: no match begins inside [P], one begins right
    behind it. *)
Lemma search_go_behind (r : re) (P s : pystr) :
  (∀ pre c post pv, P = pre ++ c :: post → match_at r pv (c :: post ++ s) = None) →
  (∀ pv, is_Some (match_at r pv s)) →
  ∀ prev i, search_go r prev (P ++ s) i = Some (i + length P).
Proof.
  intros Hno Hyes. induction P as [|c P IH]; intros prev i.
  - destruct (Hyes prev) as [n Hn]. cbn [app length].
    destruct s; cbn [search_go]; rewrite Hn; f_equal; lia.
  - cbn [app search_go length]. rewrite (Hno [] c P prev eq_refl).
    rewrite IH; [f_equal; lia |].
    intros pre c' post pv ->. by apply (Hno (c :: pre)).
Qed.

Lemma find_app_Some (sep pre s : pystr) :
  startswith sep s = true → is_Some (find sep (pre ++ s)).
Proof.
  intros Hs. induction pre as [|c pre IH].
  - cbn [app]. destruct s; cbn [find]; by rewrite Hs.
  - cbn [app find]. destruct (startswith sep (c :: pre ++ s)); [done |].
    destruct IH as [i ->]. done.
Qed.

Lemma search_playbook_start (P ws1 ws2 rest : pystr) :
  find (NL :: lit "meta:") P = None →
  Forall (λ c, isspace c = true) ws1 →
  Forall (λ c, isspace c = true) ws2 → ws2 ≠ [] →
  search re_playbook_start
    (P ++ NL :: lit "meta:" ++ ws1 ++ [NL] ++ ws2 ++ lit "company_id:" ++ rest)
  = Some (length P).
Proof.
  intros HP H1 H2 Hne. unfold search.
  apply (search_go_behind re_playbook_start P _); [|intros; by apply playbook_start_match].
  intros pre c post pv ->.
  destruct (match_at _ pv _) as [n|] eqn:Hm; [|done].
  apply playbook_start_needs_meta in Hm.
  cbn [startswith] in Hm. apply andb_true_iff in Hm as [Hc Hm].
  apply (startswith_before_newline (lit "meta:") post) in Hm;
    [|apply (bool_decide_unpack _); by vm_compute].
  assert (is_Some (find (NL :: lit "meta:") (pre ++ c :: post))) as [i Hi].
  { apply find_app_Some. cbn [startswith]. by rewrite Hc, Hm. }
  congruence.
Qed.

(** X16.  A response without the marker is cut in front of the
    playbook's [meta:] key.  For a clean persona text [P] (no newline
    followed by [meta:], no line opening with three backticks, no
    whitespace at either end) and a clean playbook text that opens with
    [meta:], blanks, a newline, an indented [company_id:], on both of
    which [yaml.safe_load] raises nothing but [yaml.YAMLError], the
    response [P], newline, playbook is split into exactly [P] and the
    playbook. *)
Theorem X16_playbook_start_round_trip (lower : pystr → pystr)
    (safe_load : pystr → SafeLoad)
    (P ws1 ws2 rest company_name home_url : pystr) :
  let Q := lit "meta:" ++ ws1 ++ [NL] ++ ws2 ++ lit "company_id:" ++ rest in
  escapes (safe_load P) = false → escapes (safe_load Q) = false →
  find MARKER (P ++ [NL] ++ Q) = None →
  find (NL :: lit "meta:") P = None →
  Forall (λ c, isspace c = true) ws1 →
  Forall (λ c, isspace c = true) ws2 → ws2 ≠ [] →
  has_fence_line P = false → has_fence_line Q = false →
  (∀ c, head P = Some c → isspace c = false) →
  (∀ c, last P = Some c → isspace c = false) →
  (∀ c, last Q = Some c → isspace c = false) →
  _parse_response lower safe_load (P ++ [NL] ++ Q) company_name home_url
  = Some (P, Q).
Proof.
  intros Q HsP HsQ Hmark Hmeta H1 H2 Hne HfP HfQ HhP HlP HlQ.
  rewrite (parse_response_eq lower safe_load _ _ _ P Q); [by rewrite HsP, HsQ |].
  assert (∀ c, head Q = Some c → isspace c = false) as HhQ
    by (intros c [= <-]; reflexivity).
  pose proof (search_playbook_start P ws1 ws2 rest Hmeta H1 H2 Hne) as Hs.
  change (NL :: lit "meta:" ++ ws1 ++ [NL] ++ ws2 ++ lit "company_id:" ++ rest)
    with (NL :: Q) in Hs.
  change (P ++ [NL] ++ Q) with (P ++ NL :: Q) in *.
  unfold response_texts.
  rewrite (proj2 (contains_false_find _ _) Hmark), Hs.
  rewrite take_app_length, drop_app_length.
  change ((_clean_yaml (strip P), _clean_yaml (strip (NL :: Q))) = (P, Q)).
  rewrite (strip_id P) by done.
  destruct (strip_line Q HhQ HlQ) as [_ ->].
  rewrite !clean_yaml_no_fence by done.
  by rewrite !strip_id.
Qed.

Lemma X16_witness :
  _parse_response ascii_lower yaml_load
    (lit "name: Maya" ++ [NL]
       ++ (lit "meta:" ++ [] ++ [NL] ++ lit "  " ++ lit "company_id:" ++ lit " x"))
    (lit "Acme") (lit "https://acme.example/")
  = Some (lit "name: Maya",
          lit "meta:" ++ [] ++ [NL] ++ lit "  " ++ lit "company_id:" ++ lit " x").
Proof.
  apply (X16_playbook_start_round_trip ascii_lower yaml_load (lit "name: Maya") []
           (lit "  ") (lit " x")).
  - reflexivity.
  - reflexivity.
  - reflexivity.
  - reflexivity.
  - constructor.
  - repeat constructor.
  - done.
  - reflexivity.
  - reflexivity.
  - intros c [= <-]. reflexivity.
  - intros c [= <-]. reflexivity.
  - intros c [= <-]. reflexivity.
Defined.

End PlaybookStart.

(** ** What the prompt shows of a tab *)
Section TabFormat.
Import PyStr Scraper CrawlShape Formatter Fixtures.



End TabFormat.

(** ** The command-line flow *)
Section MainFlow.
Import PyStr Generator Scraper CrawlShape Formatter Main Fixtures.

Lemma crawl_start_url (w : World) (self : Scraper) :
  start_url (crawl w self) = start_url self.
Proof.
  destruct (crawl_phases w self) as (s1 & recs & Hsteps & -> & _).
  by destruct (scrape_steps_frame w _ _ Hsteps) as (? & _).
Qed.

(** A crawl comes back empty exactly when the budget is not positive or
    the start page cannot be loaded. *)
Lemma crawl_pages_empty (w : World) (start : pystr) (max : Z) (self0 : Scraper) :
  __init__ w start max = Some self0 →
  pages_data (crawl w self0) = [] ↔ (max ≤ 0)%Z ∨ load w start = None.
Proof.
  intros Hinit.
  destruct (crawl_cases w _ _ _ Hinit)
    as [(Hp & Hv) | [(pg & Hl & Hmax & _ & ->)
                     | (pg & X & recs & Hl & Hmax & _ & Hc & _)]].
  - split; [intros _ | done]. destruct Hv as [(? & _) | (_ & ? & _)]; auto.
  - cbn. split; [done | intros [? | ?]; [lia | congruence]].
  - cbv zeta in Hc. rewrite Hc. cbn [pages_data set_pages].
    split; [|intros [? | ?]; [lia | congruence]].
    intros Hnil%app_eq_nil. destruct Hnil as [Hnil _].
    pose proof (scrape_steps_pages_prefix w _ _
                  (scrape_loop_steps w (attempted w max X)
                     (set_pages [page_data_of start pg]
                        (set_visited {[start]} self0)))) as [k Hk].
    rewrite Hnil in Hk. done.
Qed.

(** X19.  With an API key, an output directory that can be made, a
    standard output that takes the messages, a start URL that parses, a positive page budget, a start page that
    loads, an answer of the completion service that the splitter
    returns two texts for, and two writes that succeed, the run saves
    these two texts, the persona first, under the names built from the
    normalized company name; failures on any other page or tab do not
    matter. *)
Theorem X19_main_saves (w : World) (lower : pystr → pystr)
    (safe_load : pystr → SafeLoad) (host : Host) (response : option pystr)
    (url company : pystr) (openai_key : option pystr) (max_pages : Z)
    (d content persona_yaml playbook_yaml : pystr) (pg : Loaded) :
  no_key openai_key = false →
  mkdir_ok host = true →
  stdout_ok host = true →
  urlparse_netloc w url = Some d →
  (0 < max_pages)%Z →
  load w url = Some pg →
  response = Some content →
  _parse_response lower safe_load content company url
  = Some (persona_yaml, playbook_yaml) →
  let company_id := company_id_of lower company in
  write_ok host (persona_filename company_id) persona_yaml = true →
  write_ok host (playbook_filename company_id) playbook_yaml = true →
  main w lower safe_load host response url company openai_key max_pages
  = Saved (persona_filename company_id, persona_yaml)
          (playbook_filename company_id, playbook_yaml).
Proof.
  intros Hkey Hmk Hout Hd Hmax Hload -> Hparse company_id Hw1 Hw2.
  unfold main. rewrite Hkey, Hmk, Hout. cbn [negb].
  unfold scrape_website.
  assert (__init__ w url max_pages = Some (mkScraper url max_pages d ∅ [])) as Hinit
    by (unfold __init__; by rewrite Hd).
  rewrite Hinit. cbn [fmap option_fmap option_map].
  pose proof (crawl_pages_empty w _ _ _ Hinit) as Hempty.
  unfold scrape. cbn [pages home_url]. rewrite crawl_start_url. cbn [start_url].
  destruct (pages_data (crawl w _)) as [|p ps].
  { destruct (proj1 Hempty eq_refl); [lia | congruence]. }
  cbn [length Nat.eqb]. unfold generate. cbn [mbind option_bind home_url].
  rewrite Hparse. cbv zeta. subst company_id. by rewrite Hw1, Hw2.
Qed.

Lemma X19_witness :
  main plain_world ascii_lower yaml_load working_host
    (Some (lit "name: Maya" ++ [NL] ++ MARKER ++ [NL] ++ lit "meta: x"))
    home (lit "Acme Co") (Some (lit "sk-test")) 3
  = Saved (persona_filename (company_id_of ascii_lower (lit "Acme Co")),
           lit "name: Maya")
          (playbook_filename (company_id_of ascii_lower (lit "Acme Co")),
           lit "meta: x").
Proof.
  refine (X19_main_saves plain_world ascii_lower yaml_load working_host _ home
            (lit "Acme Co") (Some (lit "sk-test")) 3 (lit "example.com") _
            (lit "name: Maya") (lit "meta: x") home_page _ _ _ _ _ _ _ _ _ _).
  - reflexivity.
  - reflexivity.
  - reflexivity.
  - reflexivity.
  - lia.
  - reflexivity.
  - reflexivity.
  - vm_compute. reflexivity.
  - reflexivity.
  - reflexivity.
Defined.

(** X20.  The run ends with exit status 1 and saves nothing when the
    API key is missing or empty, the start URL does not parse, the page
    budget is zero or less, the start page cannot be loaded, or the
    completion service gives no answer. *)
Theorem X20_main_exits (w : World) (lower : pystr → pystr)
    (safe_load : pystr → SafeLoad) (host : Host) (response : option pystr)
    (url company : pystr) (openai_key : option pystr) (max_pages : Z) :
  no_key openai_key = true
  ∨ urlparse_netloc w url = None
  ∨ (max_pages ≤ 0)%Z
  ∨ load w url = None
  ∨ response = None →
  main w lower safe_load host response url company openai_key max_pages = Exit 1.
Proof.
  intros Hcause. unfold main.
  destruct (no_key openai_key); [done |].
  destruct Hcause as [? | Hcause]; [done |].
  destruct (mkdir_ok host); [|done]. destruct (stdout_ok host); [|done].
  cbn [negb].
  unfold scrape_website.
  destruct (__init__ w url max_pages) as [self0|] eqn:Hinit; [|done].
  cbn [fmap option_fmap option_map].
  pose proof (crawl_pages_empty w _ _ _ Hinit) as Hempty.
  unfold scrape. cbn [pages home_url].
  destruct (pages_data (crawl w self0)) as [|p ps]; [done |].
  cbn [length Nat.eqb].
  destruct Hcause as [Hd | [Hmax | [Hload | ->]]].
  - unfold __init__ in Hinit. by rewrite Hd in Hinit.
  - discriminate (proj2 Hempty (or_introl Hmax)).
  - discriminate (proj2 Hempty (or_intror Hload)).
  - done.
Qed.

Lemma X20_witness :
  main plain_world ascii_lower yaml_load working_host (Some (lit "name: Maya"))
    (lit "https://example.com/missing") (lit "Acme") (Some (lit "sk-test")) 5
  = Exit 1.
Proof.
  apply X20_main_exits. right. right. right. left. reflexivity.
Defined.

(** An answer on which [yaml.safe_load] raises a [ValueError] ends the
    run with status 1, and so does a persona file that cannot be
    opened. *)
Example main_load_raises :
  main plain_world ascii_lower yaml_load working_host
    (Some (lit "date: 2001-13-45" ++ [NL] ++ MARKER ++ [NL] ++ lit "meta: x"))
    home (lit "Acme Co") (Some (lit "sk-test")) 3
  = Exit 1.
Proof. vm_compute. reflexivity. Qed.

Example main_persona_not_writable :
  main plain_world ascii_lower yaml_load
    (mkHost true true (λ name _, bool_decide (47%N ∉ name)))
    (Some (lit "name: Maya" ++ [NL] ++ MARKER ++ [NL] ++ lit "meta: x"))
    home (lit "A/B") (Some (lit "sk-test")) 3
  = Exit 1.
Proof. vm_compute. reflexivity. Qed.

(** X21.  The two files of a run have different names, so the playbook
    never overwrites the persona. *)
Theorem X21_output_names_differ (company_id : pystr) :
  persona_filename company_id ≠ playbook_filename company_id.
Proof.
  intros H. apply (f_equal length) in H.
  unfold persona_filename, playbook_filename in H.
  rewrite !length_app in H.
  change (length (lit "persona_")) with 8 in H.
  change (length (lit ".yaml")) with 5 in H.
  change (length (lit "_playbook.yaml")) with 14 in H. lia.
Qed.

End MainFlow.
